(** * youtubeaio: the YouTube API client ([src/youtubeaio/youtube.py])

    A shallow embedding of the [YouTube] class: the error classifier
    [_check_request_return], the authenticated request executor
    [_api_get_request], the pagination engine [_build_generator], the
    credential operations, the resource accessors and [close].

    Conventions.
    - A decoded JSON body is a value of [json]; a Python [dict] with string
      keys is an association list in insertion order ([pydict]).  Python's
      [None] is [JNull].
    - Coroutines are computations in a state-and-exception monad [M] over the
      client object and the world around it (the HTTP sessions that exist and
      the requests sent so far).
    - An async generator is run by a consumer that drains it: it denotes the
      list of the records it yields, how it ends (exhausted, or an exception),
      and the state it leaves ([Gen]).
    - The network is an input: a script of [exchange]s tells what the
      transport does with the first, second, ... request of a run. *)

From Stdlib Require Import ZArith String Ascii List Bool Lia SpecFloat.
From stdpp Require Import base option list strings.

Local Open Scope string_scope.
Local Open Scope list_scope.
Local Open Scope Z_scope.
#[local] Set Warnings "-register-all".

(** ** Decoded JSON and Python dictionaries *)

Inductive json : Type :=
| JNull                                   (* None *)
| JBool (b : bool)
| JInt (n : Z)
| JFloat (f : spec_float)
| JStr (s : string)
| JArr (l : list json)
| JObj (d : list (string * json)).

Definition pydict : Type := list (string * json).

Definition is_None (v : json) : bool :=
  match v with JNull => true | _ => false end.

(** [d.get(k)]: the value stored under [k], [None] when the key is absent. *)
Fixpoint dict_lookup (d : pydict) (k : string) : option json :=
  match d with
  | [] => None
  | (k', v) :: d' => if String.eqb k' k then Some v else dict_lookup d' k
  end.

Definition dict_get (d : pydict) (k : string) : json :=
  match dict_lookup d k with Some v => v | None => JNull end.

(** [d.get(k, default)]. *)
Definition dict_get_default (d : pydict) (k : string) (default : json) : json :=
  match dict_lookup d k with Some v => v | None => default end.

(** [d[k] = v]: replaces the value in place, a new key goes last. *)
Fixpoint dict_set (d : pydict) (k : string) (v : json) : pydict :=
  match d with
  | [] => [(k, v)]
  | (k', v') :: d' =>
      if String.eqb k' k then (k', v) :: d' else (k', v') :: dict_set d' k v
  end.

(** ** Exceptions

    The classes of [youtubeaio.types] the client raises, and the foreign
    exceptions that travel through it. *)

Inductive exn : Type :=
| YouTubeBackendError (msg : string)
| YouTubeAPIError (msg : option string)        (* [None]: raised without arguments *)
| YouTubeResourceNotFoundError
| UnauthorizedError
| ForbiddenError (msg : json)
| MissingScopeError (msg : string)
| ValueError (msg : string)
| TimeoutError                                  (* asyncio.TimeoutError *)
| ClientError                                   (* aiohttp.ClientError and subclasses *)
| KeyError | IndexError | TypeError | AttributeError
| OtherError (name : string).

Inductive result (A : Type) : Type :=
| Return (a : A)
| Raise (e : exn).
Arguments Return {A} a.
Arguments Raise {A} e.

(** ** HTTP: requests, responses, the transport *)

Record request : Type := Request {
  req_url : string;
  req_headers : list (string * string);
  req_json : option pydict
}.

(** What the client looks at in a [ClientResponse]: the status, the parsed
    content type, and what awaiting [response.json()] gives. *)
Record response : Type := Response {
  status : Z;
  content_type : string;
  resp_json : result json
}.

(** What the transport does with one [session.get]: it answers after some
    time, it fails after some time, or it never answers. *)
Inductive exchange : Type :=
| Reply (latency : Z) (r : response)
| Fails (latency : Z) (e : exn)
| Silent.

(** ** The client object and the world *)

Section Client.

(** [youtubeaio.types.AuthScope]. *)
Variable AuthScope : Type.

(** The class attribute [_user_auth_scopes] starts as the object
    [field(default_factory=list)]; an instance gets a list only from
    [set_user_authentication]. *)
Inductive scopes_attr : Type :=
| FieldDefault
| ScopeList (scopes : list AuthScope).

Record YouTube : Type := MkYouTube {
  session : option nat;                  (* a [ClientSession], by identity *)
  session_timeout : Z;
  app_id : option string;
  app_secret : option string;
  auto_refresh_auth : bool;
  _close_session : bool;
  _user_auth_token : option string;
  _user_auth_refresh_token : option string;
  _user_auth_scopes : scopes_attr;
  _has_user_auth : bool
}.

(** The sessions that exist, each with its [closed] flag, indexed by
    identity, and the requests handed to the transport so far, oldest
    first. *)
Record world : Type := World {
  closed : list bool;
  sent : list request
}.

Record state : Type := St {
  self : YouTube;
  env : world
}.

Definition base_url : string := "https://youtube.googleapis.com/youtube/v3/".

(** [YouTube(app_id, app_secret, session, session_timeout, auto_refresh_auth)];
    [session_timeout = None] stands for the argument left out. *)
Definition __init__ (app_id app_secret : option string) (session : option nat)
    (session_timeout : option Z) (auto_refresh_auth : option bool) : YouTube :=
  {| session := session;
     session_timeout := match session_timeout with Some t => t | None => 10 end;
     app_id := app_id;
     app_secret := app_secret;
     auto_refresh_auth :=
       match auto_refresh_auth with
       | None => bool_decide (app_id ≠ None) && bool_decide (app_secret ≠ None)
       | Some b => b
       end;
     _close_session := false;
     _user_auth_token := None;
     _user_auth_refresh_token := None;
     _user_auth_scopes := FieldDefault;
     _has_user_auth := false |}.

(** ** Coroutines: state and exceptions *)

Definition M (A : Type) : Type := state -> result A * state.

Definition ret {A} (a : A) : M A := fun s => (Return a, s).
Definition raise {A} (e : exn) : M A := fun s => (Raise e, s).
Definition bind {A B} (m : M A) (k : A -> M B) : M B :=
  fun s => match m s with
           | (Return a, s') => k a s'
           | (Raise e, s') => (Raise e, s')
           end.
Definition get_self : M YouTube := fun s => (Return (self s), s).
Definition set_self (y : YouTube) : M unit :=
  fun s => (Return tt, {| self := y; env := env s |}).
Definition get_env : M world := fun s => (Return (env s), s).
Definition set_env (w : world) : M unit :=
  fun s => (Return tt, {| self := self s; env := w |}).
Definition lift {A} (r : result A) : M A := fun s => (r, s).

Notation "x <- m ;; k" := (bind m (fun x => k))
  (at level 100, m at next level, k at level 200, right associativity).
Notation "m ;;; k" := (bind m (fun _ => k))
  (at level 100, k at level 200, right associativity).

(** ** Python operations on decoded JSON *)

(** [str(v)] for a decoded JSON value that is not a string: Python's
    rendering of numbers, booleans and containers. *)
Variable py_repr : json -> string.

(** [f"{v!s}"]. *)
Definition py_str (v : json) : string :=
  match v with JStr s => s | _ => py_repr v end.

(** [f"{token}"] for a [str | None]. *)
Definition format_token (token : option string) : string :=
  match token with Some t => t | None => "None" end.

(** [v.get(k)]: only a dict has the method. *)
Definition attr_get (v : json) (k : string) : result json :=
  match v with
  | JObj d => Return (dict_get d k)
  | _ => Raise AttributeError
  end.

(** [v.get(k, default)]. *)
Definition attr_get_default (v : json) (k : string) (default : json) : result json :=
  match v with
  | JObj d => Return (dict_get_default d k default)
  | _ => Raise AttributeError
  end.

(** [v[k]] for a string key [k]. *)
Definition getitem_key (v : json) (k : string) : result json :=
  match v with
  | JObj d => match dict_lookup d k with
              | Some x => Return x
              | None => Raise KeyError
              end
  | _ => Raise TypeError
  end.

(** [v[0]]. *)
Definition getitem_0 (v : json) : result json :=
  match v with
  | JArr (x :: _) => Return x
  | JArr [] => Raise IndexError
  | JObj _ => Raise KeyError
  | JStr (String c _) => Return (JStr (String c EmptyString))
  | JStr EmptyString => Raise IndexError
  | _ => Raise TypeError
  end.

Fixpoint chars (s : string) : list json :=
  match s with
  | EmptyString => []
  | String c s' => JStr (String c EmptyString) :: chars s'
  end.

(** What [for entry in v] iterates over. *)
Definition py_iter (v : json) : result (list json) :=
  match v with
  | JArr l => Return l
  | JObj d => Return (map (fun kv => JStr (fst kv)) d)
  | JStr s => Return (chars s)
  | _ => Raise TypeError
  end.

(** [s.lower()], on ASCII letters. *)
Definition lower_ascii (c : ascii) : ascii :=
  let n := nat_of_ascii c in
  if (Nat.leb 65 n && Nat.leb n 90)%bool then ascii_of_nat (n + 32) else c.

Fixpoint lower (s : string) : string :=
  match s with
  | EmptyString => EmptyString
  | String c s' => String (lower_ascii c) (lower s')
  end.

(** [sep.join(l)]. *)
Definition join (sep : string) (l : list string) : string := String.concat sep l.

(** ** The error classifier *)

(** aiohttp's [response.raise_for_status()]. *)
Definition raise_for_status (r : response) : result unit :=
  if 400 <=? status r then Raise ClientError else Return tt.

Definition _check_request_return (r : response) : M response :=
  if status r =? 500 then
    raise (YouTubeBackendError "Internal Server Error")
  else if status r =? 400 then
    body <- lift (resp_json r);;
    msg <- lift (attr_get body "message");;
    raise (YouTubeAPIError
             (Some ("Bad Request" +:+ (if is_None msg then "" else " - " +:+ py_str msg))))
  else if status r =? 404 then
    raise YouTubeResourceNotFoundError
  else if status r =? 401 then
    raise UnauthorizedError
  else if status r =? 403 then
    response_json <- lift (resp_json r);;
    v <- lift (getitem_key response_json "error");;
    v <- lift (getitem_key v "errors");;
    v <- lift (getitem_0 v);;
    error_message <- lift (getitem_key v "message");;
    raise (ForbiddenError error_message)
  else
    (if (400 <=? status r) && (status r <? 500) then
       match raise_for_status r with
       | Raise ClientError => raise (YouTubeAPIError None)
       | other => lift other
       end
     else ret tt);;;
    ret r.

(** ** The authenticated request executor *)

(** [await session.get(url, headers=headers, json=data)] inside a timeout
    scope of [delay] time units.  The request goes out; the scope raises
    [asyncio.TimeoutError] unless the transport is done before [delay]. *)
Definition session_get (delay : Z) (x : exchange) (session : option nat)
    (url : string) (headers : list (string * string)) (data : option pydict)
    : M response :=
  match session with
  | None => raise AttributeError
  | Some _ =>
      w <- get_env;;
      set_env {| closed := closed w;
                 sent := sent w ++ [Request url headers data] |};;;
      match x with
      | Reply latency r => if latency <? delay then ret r else raise TimeoutError
      | Fails latency e => if latency <? delay then raise e else raise TimeoutError
      | Silent => raise TimeoutError
      end
  end.

(** [delay] is the timeout scope the call runs in and [x] what the transport
    does with the request; the debug line for the logger is left out. *)
Definition _api_get_request (delay : Z) (x : exchange) (session : option nat)
    (url : string) (data : option pydict) : M response :=
  me <- get_self;;
  let headers := [("Authorization", "Bearer " +:+ format_token (_user_auth_token me))] in
  response <- session_get delay x session url headers data;;
  _check_request_return response.

(** The verb table [self._r_lookup] built by [__init__]. *)
Inductive handler : Type := ApiGet.

Definition call (h : handler) :=
  match h with ApiGet => _api_get_request end.

Definition _r_lookup : list (string * handler) := [("get", ApiGet)].

Fixpoint lookup_handler (table : list (string * handler)) (k : string)
    (default : handler) : handler :=
  match table with
  | [] => default
  | (k', h) :: table' => if String.eqb k' k then h else lookup_handler table' k default
  end.

(** ** Async generators

    A drained generator: the records yielded, in order, then how the
    iteration ends ([Return]: exhausted; [Raise]: an exception reaches the
    consumer), and the state left behind. *)

Definition Gen (T A : Type) : Type := state -> (list T * result A) * state.

Definition gret {T A} (a : A) : Gen T A := fun s => (([], Return a), s).
Definition graise {T A} (e : exn) : Gen T A := fun s => (([], Raise e), s).
Definition gbind {T A B} (g : Gen T A) (k : A -> Gen T B) : Gen T B :=
  fun s => match g s with
           | ((ys, Return a), s') =>
               match k a s' with
               | ((ys', r), s'') => ((ys ++ ys', r), s'')
               end
           | ((ys, Raise e), s') => ((ys, Raise e), s')
           end.
Definition yield {T} (t : T) : Gen T unit := fun s => (([t], Return tt), s).
Definition await {T A} (m : M A) : Gen T A :=
  fun s => match m s with (r, s') => (([], r), s') end.

Notation "x <~ g ;; k" := (gbind g (fun x => k))
  (at level 100, g at next level, k at level 200, right associativity).
Notation "g ;;~ k" := (gbind g (fun _ => k))
  (at level 100, k at level 200, right associativity).

(** [for entry in entries: body(entry)]. *)
Fixpoint for_each {T} (entries : list json) (body : json -> Gen T unit) : Gen T unit :=
  match entries with
  | [] => gret tt
  | entry :: entries' => body entry ;;~ for_each entries' body
  end.

(** [try: ... except asyncio.TimeoutError as exc: raise YouTubeBackendError(msg) from exc]. *)
Definition except_timeout {T A} (g : Gen T A) : Gen T A :=
  fun s => match g s with
           | ((ys, Raise TimeoutError), s') =>
               ((ys, Raise (YouTubeBackendError "Timeout occurred")), s')
           | other => other
           end.

(** ** The pagination engine *)

(** [youtubeaio.helper.build_url(url, params, remove_none, split_lists)]. *)
Variable build_url : string -> pydict -> bool -> bool -> string.

(** [ClientSession()]: a new, open session. *)
Definition ClientSession : M nat :=
  w <- get_env;;
  set_env {| closed := closed w ++ [false]; sent := sent w |};;;
  ret (length (closed w)).

(** [return_type] called with the fields of [entry] as keyword arguments:
    only a mapping can be unpacked. *)
Definition construct {T} (return_type : pydict -> result T) (entry : json) : result T :=
  match entry with
  | JObj fields => return_type fields
  | _ => Raise TypeError
  end.

Section Engine.

Context {T : Type}.
Variable method : Z -> exchange -> option nat -> string -> option pydict -> M response.
Variables (url : string) (return_type : pydict -> result T).
Variables (body_data : option pydict) (split_lists : bool).

(** One pass through the body of the [while] loop, after the assignment to
    [url_params["pageToken"]]; [x] is what the transport does with the
    request.  The value is the new [_after]. *)
Definition iteration (x : exchange) (url_params : pydict) : Gen T json :=
  me <~ await get_self;;
  let _url := build_url (base_url +:+ url) url_params true split_lists in
  response <~ await (method (session_timeout me) x (session me) _url body_data);;
  if negb (String.eqb (content_type response) "application/json") then
    graise (YouTubeAPIError (Some "Unexpected response type"))
  else
    data <~ await (lift (resp_json response));;
    items <~ await (lift (attr_get_default data "items" (JArr [])));;
    entries <~ await (lift (py_iter items));;
    for_each entries (fun entry =>
      record <~ await (lift (construct return_type entry));;
      yield record);;~
    _after <~ await (lift (attr_get data "nextPageToken"));;
    gret _after.

(** [while _first or _after is not None: ...].  Each pass uses up one
    exchange of the script; when the script has run out the transport stays
    silent. *)
Fixpoint while_loop (_first : bool) (_after : json) (url_params : pydict)
    (script : list exchange) : Gen T unit :=
  if _first || negb (is_None _after) then
    let url_params := dict_set url_params "pageToken" _after in
    match script with
    | [] => iteration Silent url_params ;;~ gret tt
    | x :: script' =>
        _after <~ iteration x url_params;;
        while_loop false _after url_params script'
    end
  else gret tt.

End Engine.

Definition _build_generator {T} (req url : string) (url_params : pydict)
    (return_type : pydict -> result T) (body_data : option pydict)
    (split_lists : bool) (script : list exchange) : Gen T unit :=
  let method := call (lookup_handler _r_lookup (lower req) ApiGet) in
  let _after := dict_get url_params "nextPageToken" in
  let _first := true in
  me <~ await get_self;;
  (if session me is None then
     new <~ await ClientSession;;
     await (set_self {| session := Some new;
                        session_timeout := session_timeout me;
                        app_id := app_id me;
                        app_secret := app_secret me;
                        auto_refresh_auth := auto_refresh_auth me;
                        _close_session := true;
                        _user_auth_token := _user_auth_token me;
                        _user_auth_refresh_token := _user_auth_refresh_token me;
                        _user_auth_scopes := _user_auth_scopes me;
                        _has_user_auth := _has_user_auth me |})
   else gret tt);;~
  except_timeout
    (while_loop method url return_type body_data split_lists
       _first _after url_params script).

(** ** Credentials *)

Definition set_user_authentication (token : string) (scopes : list AuthScope)
    (refresh_token : option string) : M unit :=
  me <- get_self;;
  if bool_decide (refresh_token = None) && auto_refresh_auth me then
    raise (ValueError "refresh_token has to be provided when auto_refresh_auth is True")
  else if scopes is [] then
    raise (MissingScopeError "scope was not provided")
  else
    set_self {| session := session me;
                session_timeout := session_timeout me;
                app_id := app_id me;
                app_secret := app_secret me;
                auto_refresh_auth := auto_refresh_auth me;
                _close_session := _close_session me;
                _user_auth_token := Some token;
                _user_auth_refresh_token := refresh_token;
                _user_auth_scopes := ScopeList scopes;
                _has_user_auth := true |}.

Definition get_user_auth_token (me : YouTube) : option string :=
  _user_auth_token me.

(** ** Resource accessors *)

(** The record classes [YouTubeVideo] and [YouTubeChannel] of
    [youtubeaio.models]: what the class makes of the fields of an entry. *)
Variables Video Channel : Type.
Variable YouTubeVideo : pydict -> result Video.
Variable YouTubeChannel : pydict -> result Channel.

Definition get_videos (video_ids : list string) (script : list exchange)
    : Gen Video unit :=
  if video_ids is [] then
    graise (ValueError "at least one video id has to be set")
  else
    let param := [("part", JStr "snippet"); ("id", JStr (join "," video_ids))] in
    _build_generator "GET" "videos" param YouTubeVideo None false script.

Definition _get_channels (param : pydict) (script : list exchange)
    : Gen Channel unit :=
  _build_generator "GET" "channels" param YouTubeChannel None false script.

Definition get_user_channels (script : list exchange) : Gen Channel unit :=
  let param := [("part", JStr "snippet"); ("mine", JStr "true")] in
  _get_channels param script.

Definition get_channels (channel_ids : list string) (script : list exchange)
    : Gen Channel unit :=
  let param := [("part", JStr "snippet,contentDetails,statistics");
                ("id", JStr (join "," channel_ids))] in
  _get_channels param script.

(** ** Closing *)

(** aiohttp's [session.close()]: closes the session unless it is closed. *)
Definition session_close (i : nat) : M unit :=
  w <- get_env;;
  set_env {| closed := <[i := true]> (closed w); sent := sent w |}.

Definition close : M unit :=
  me <- get_self;;
  match session me with
  | Some i => if _close_session me then session_close i else ret tt
  | None => ret tt
  end.

Definition __aexit__ : M unit := close.

(** ** Histories of a client

    What a caller can do with one client object, one call after the other. *)

Inductive op : Type :=
| SetUserAuthentication (token : string) (scopes : list AuthScope)
    (refresh_token : option string)
| GetVideos (video_ids : list string) (script : list exchange)
| GetChannels (channel_ids : list string) (script : list exchange)
| GetUserChannels (script : list exchange)
| Close.

Definition run_op (o : op) (s : state) : state :=
  match o with
  | SetUserAuthentication token scopes refresh_token =>
      snd (set_user_authentication token scopes refresh_token s)
  | GetVideos video_ids script => snd (get_videos video_ids script s)
  | GetChannels channel_ids script => snd (get_channels channel_ids script s)
  | GetUserChannels script => snd (get_user_channels script s)
  | Close => snd (close s)
  end.

Definition run_ops (ops : list op) (s : state) : state :=
  fold_left (fun s o => run_op o s) ops s.

(** A call of [set_user_authentication] that goes through. *)
Definition sets_credentials (o : op) (s : state) : bool :=
  match o with
  | SetUserAuthentication token scopes refresh_token =>
      match fst (set_user_authentication token scopes refresh_token s) with
      | Return _ => true
      | Raise _ => false
      end
  | _ => false
  end.

(** In the history [ops], started in [s], no call of
    [set_user_authentication] goes through. *)
Fixpoint no_credentials_set (ops : list op) (s : state) : bool :=
  match ops with
  | [] => true
  | o :: ops' => negb (sets_credentials o s) && no_credentials_set ops' (run_op o s)
  end.

(** ** Pages as the API serves them

    The exchanges the properties below speak about. *)

(** A status the classifier lets through. *)
Definition passes (st : Z) : Prop := st <> 500 /\ ~ (400 <= st < 500).

(** The transport answers in time with a JSON page that lists [entries]
    (no [items] field: no entries) and names the cursor [next] (no
    [nextPageToken] field: [None]). *)
Definition serves (delay : Z) (x : exchange) (p : list pydict * json) : Prop :=
  exists latency r d,
    x = Reply latency r /\ latency < delay /\ passes (status r)
    /\ content_type r = "application/json"
    /\ resp_json r = Return (JObj d)
    /\ dict_get_default d "items" (JArr []) = JArr (map JObj p.1)
    /\ dict_get d "nextPageToken" = p.2.

(** The transport is not done when the timeout of [delay] expires. *)
Definition exceeds (delay : Z) (x : exchange) : Prop :=
  match x with
  | Reply latency _ | Fails latency _ => delay <= latency
  | Silent => True
  end.

(** The request for the page at cursor [c]. *)
Definition page_request (me : YouTube) (url : string) (url_params : pydict)
    (body_data : option pydict) (split_lists : bool) (c : json) : request :=
  {| req_url := build_url (base_url +:+ url) (dict_set url_params "pageToken" c)
                  true split_lists;
     req_headers :=
       [("Authorization", "Bearer " +:+ format_token (_user_auth_token me))];
     req_json := body_data |}.

(** The client after the engine made sure of a session. *)
Definition with_session (s : state) : state :=
  match session (self s) with
  | Some _ => s
  | None =>
      {| self := {| session := Some (length (closed (env s)));
                    session_timeout := session_timeout (self s);
                    app_id := app_id (self s);
                    app_secret := app_secret (self s);
                    auto_refresh_auth := auto_refresh_auth (self s);
                    _close_session := true;
                    _user_auth_token := _user_auth_token (self s);
                    _user_auth_refresh_token := _user_auth_refresh_token (self s);
                    _user_auth_scopes := _user_auth_scopes (self s);
                    _has_user_auth := _has_user_auth (self s) |};
         env := {| closed := closed (env s) ++ [false]; sent := sent (env s) |} |}
  end.

(** The state with the requests [rqs] sent on top. *)
Definition after_requests (s : state) (rqs : list request) : state :=
  {| self := self s;
     env := {| closed := closed (env s); sent := sent (env s) ++ rqs |} |}.

(** ** Notions the statements and proofs use *)

(** The cursors a run goes through: the initial one, then the one each
    page names. *)
Definition cursors (_after : json) (pages : list (list pydict * json)) : list json :=
  _after :: map snd pages.

(** The state in which the last pass of a run over the pages [more] and one
    more exchange starts, and the state that pass leaves. *)
Definition before_last (url : string) (url_params : pydict)
    (body_data : option pydict) (split_lists : bool)
    (s : state) (more : list (list pydict * json)) : state :=
  after_requests (with_session s)
    (map (page_request (self s) url url_params body_data split_lists)
       (removelast (cursors (dict_get url_params "nextPageToken") more))).

Definition after_last (url : string) (url_params : pydict)
    (body_data : option pydict) (split_lists : bool)
    (s : state) (more : list (list pydict * json)) : state :=
  after_requests (with_session s)
    (map (page_request (self s) url url_params body_data split_lists)
       (cursors (dict_get url_params "nextPageToken") more)).

(** The headers of a request, spelled out by cases on the token. *)
Definition authorization (me : YouTube) : list (string * string) :=
  [("Authorization",
    match _user_auth_token me with
    | Some token => "Bearer " +:+ token
    | None => "Bearer None"
    end)].

(** Generators that leave the state alone. *)
Definition stateless {T A} (g : Gen T A) : Prop := forall s, snd (g s) = s.

(** The calls that run the engine. *)
Definition is_accessor (o : op) : bool :=
  match o with
  | SetUserAuthentication _ _ _ | Close => false
  | _ => true
  end.

(** ** The other accessors, and the context manager *)

(** The record classes [YouTubeSubscription], [SuperChatEvent] and
    [YouTubePlaylistItem] of [youtubeaio.models]. *)
Variables Subscription SuperChat PlaylistItem : Type.
Variable YouTubeSubscription : pydict -> result Subscription.
Variable SuperChatEvent : pydict -> result SuperChat.
Variable YouTubePlaylistItem : pydict -> result PlaylistItem.

Definition get_user_subscriptions (script : list exchange) : Gen Subscription unit :=
  let param := [("part", JStr "snippet"); ("mine", JStr "true")] in
  _build_generator "GET" "subscriptions" param YouTubeSubscription None false script.

Definition get_super_chats_events (script : list exchange) : Gen SuperChat unit :=
  let param := [("part", JStr "snippet"); ("mine", JStr "true")] in
  _build_generator "GET" "superChatEvents" param SuperChatEvent None false script.

(** [max_results = None] stands for the argument left out. *)
Definition get_playlist_items (playlist_id : string) (max_results : option Z)
    (script : list exchange) : Gen PlaylistItem unit :=
  let max_results := match max_results with Some n => n | None => 50 end in
  let param := [("part", JStr "snippet,contentDetails");
                ("playlistId", JStr playlist_id);
                ("maxResults", JInt max_results)] in
  _build_generator "GET" "playlistItems" param YouTubePlaylistItem None false script.

Definition __aenter__ : M YouTube := get_self.

(** Everything a caller can do with a client, drained generators
    included. *)
Inductive action : Type :=
| DoSetUserAuthentication (token : string) (scopes : list AuthScope)
    (refresh_token : option string)
| DoGetVideos (video_ids : list string) (script : list exchange)
| DoGetUserChannels (script : list exchange)
| DoGetChannels (channel_ids : list string) (script : list exchange)
| DoGetUserSubscriptions (script : list exchange)
| DoGetSuperChatsEvents (script : list exchange)
| DoGetPlaylistItems (playlist_id : string) (max_results : option Z)
    (script : list exchange)
| DoClose.

Definition run_action (a : action) (s : state) : state :=
  match a with
  | DoSetUserAuthentication token scopes refresh_token =>
      snd (set_user_authentication token scopes refresh_token s)
  | DoGetVideos video_ids script => snd (get_videos video_ids script s)
  | DoGetUserChannels script => snd (get_user_channels script s)
  | DoGetChannels channel_ids script => snd (get_channels channel_ids script s)
  | DoGetUserSubscriptions script => snd (get_user_subscriptions script s)
  | DoGetSuperChatsEvents script => snd (get_super_chats_events script s)
  | DoGetPlaylistItems playlist_id max_results script =>
      snd (get_playlist_items playlist_id max_results script s)
  | DoClose => snd (close s)
  end.

Definition run_actions (actions : list action) (s : state) : state :=
  fold_left (fun s a => run_action a s) actions s.

(** [async with client: ...]: [__aenter__], the body, [__aexit__]. *)
Definition async_with (body : list action) (s : state) : state :=
  snd (__aexit__ (run_actions body (snd (__aenter__ s)))).

(** The error an exception of the loop reaches the consumer as. *)
Definition surfaced (e : exn) : exn :=
  match e with
  | TimeoutError => YouTubeBackendError "Timeout occurred"
  | _ => e
  end.


(** A response that gets through, declares JSON, and whose body is not a
    page the loop can read: decoding it raises, or it is not an object, or
    its [items] cannot be iterated. *)
Definition unreadable (r : response) (e : exn) : Prop :=
  passes (status r) /\ content_type r = "application/json"
  /\ (resp_json r = Raise e
      \/ (exists v,
            resp_json r = Return v /\ attr_get_default v "items" (JArr []) = Raise e)
      \/ (exists d items,
            resp_json r = Return (JObj d) /\ dict_lookup d "items" = Some items
            /\ py_iter items = Raise e)).

(** The request for the first page of [path] with the parameters [param],
    none of which is [pageToken]: no page token, no body, parameters that are
    [None] left out, lists not split. *)
Definition first_request (me : YouTube) (path : string) (param : pydict) : request :=
  {| req_url := build_url (base_url +:+ path) (param ++ [("pageToken", JNull)])
                  true false;
     req_headers :=
       [("Authorization", "Bearer " +:+ format_token (_user_auth_token me))];
     req_json := None |}.

(** * Properties *)

(** ** The classifier and the executor *)

(** The classifier reads the response and leaves the state alone. *)
Lemma check_request_return_state (r : response) (s : state) :
  snd (_check_request_return r s) = s.
Proof.
  unfold _check_request_return, bind, lift, raise, ret.
  repeat (case_match; simplify_eq; simpl); reflexivity.
Qed.

Lemma authorization_eq me :
  [("Authorization", "Bearer " +:+ format_token (_user_auth_token me))]
  = authorization me.
Proof. unfold authorization. destruct (_user_auth_token me); reflexivity. Qed.

Lemma api_get_request_state delay x i url data s :
  snd (_api_get_request delay x (Some i) url data s)
  = after_requests s [Request url (authorization (self s)) data].
Proof.
  unfold _api_get_request, session_get, bind, get_self, get_env, set_env,
    after_requests, authorization, format_token, raise, ret; simpl.
  destruct (_user_auth_token (self s)) eqn:Htok; simpl;
    (destruct x as [latency r|latency e|]; simpl;
     [ destruct (latency <? delay); simpl;
       [ match goal with
         | |- context [_check_request_return ?r ?s] =>
             pose proof (check_request_return_state r s) as Hs;
             destruct (_check_request_return r s) as [[?|?] ?]; simpl in *;
             subst; reflexivity
         end
       | reflexivity ]
     | destruct (latency <? delay); reflexivity
     | reflexivity ]).
Qed.

(** C2 (as amended). For every response with status 400 whose body decodes
    to a JSON object, the classifier raises an API error; its message is
    "Bad Request" when the body has no [message] field (or a null one), and
    "Bad Request - " followed by the field, rendered as a string, when it
    has one. *)
Theorem bad_request_message (r : response) (d : pydict) (s : state) :
  status r = 400 ->
  resp_json r = Return (JObj d) ->
  _check_request_return r s
  = (Raise (YouTubeAPIError
              (Some match dict_lookup d "message" with
                    | None | Some JNull => "Bad Request"
                    | Some m => "Bad Request - " +:+ py_str m
                    end)), s).
Proof.
  intros Hst Hbody.
  unfold _check_request_return, bind, lift, raise.
  rewrite Hst, Hbody; simpl. unfold dict_get.
  destruct (dict_lookup d "message") as [m|]; [|reflexivity].
  destruct m; reflexivity.
Qed.

(** ** Credentials *)

Lemma set_user_authentication_raises token scopes refresh_token s e :
  fst (set_user_authentication token scopes refresh_token s) = Raise e ->
  snd (set_user_authentication token scopes refresh_token s) = s.
Proof.
  unfold set_user_authentication, bind, get_self, raise, set_self; simpl.
  destruct (bool_decide (refresh_token = None) && auto_refresh_auth (self s));
    [reflexivity|].
  destruct scopes; [reflexivity|]. simpl. discriminate.
Qed.

(** C6. Setting credentials with an empty scope list fails with a
    validation error ([ValueError] or [MissingScopeError]); so does setting
    them without a refresh token on a client with auto-refresh on; and a call
    that fails leaves the client, with its stored token, refresh token and
    scopes, and the world as they were. *)
Theorem set_user_authentication_validates (token : string)
    (scopes : list AuthScope) (refresh_token : option string) (s : state) :
  (exists msg,
      fst (set_user_authentication token [] refresh_token s) = Raise (ValueError msg)
      \/ fst (set_user_authentication token [] refresh_token s)
         = Raise (MissingScopeError msg))
  /\ (auto_refresh_auth (self s) = true ->
      fst (set_user_authentication token scopes None s)
      = Raise (ValueError
                 "refresh_token has to be provided when auto_refresh_auth is True"))
  /\ (forall e,
      fst (set_user_authentication token scopes refresh_token s) = Raise e ->
      snd (set_user_authentication token scopes refresh_token s) = s).
Proof.
  split; [|split].
  - unfold set_user_authentication, bind, get_self, raise; simpl.
    destruct (bool_decide (refresh_token = None) && auto_refresh_auth (self s));
      simpl; eauto.
  - intros Hauto.
    unfold set_user_authentication, bind, get_self, raise; simpl.
    rewrite Hauto. reflexivity.
  - intros e. apply set_user_authentication_raises.
Qed.

(** ** The engine, one pass at a time *)

Lemma gbind_return {T A B} (g : Gen T A) (k : A -> Gen T B) s ys a s' ys' r s'' l :
  g s = ((ys, Return a), s') ->
  k a s' = ((ys', r), s'') ->
  l = ys ++ ys' ->
  gbind g k s = ((l, r), s'').
Proof. intros Hg Hk ->. unfold gbind. rewrite Hg, Hk. reflexivity. Qed.

Lemma gbind_raise {T A B} (g : Gen T A) (k : A -> Gen T B) s ys e s' :
  g s = ((ys, Raise e), s') ->
  gbind g k s = ((ys, Raise e), s').
Proof. intros Hg. unfold gbind. rewrite Hg. reflexivity. Qed.

Lemma gbind_silent {T A B} (g : Gen T A) (k : A -> Gen T B) s a s' :
  g s = (([], Return a), s') -> gbind g k s = k a s'.
Proof.
  intros Hg. unfold gbind. rewrite Hg.
  destruct (k a s') as [[ys r] s'']. reflexivity.
Qed.

Lemma snd_gbind {T A B} (g : Gen T A) (k : A -> Gen T B) s :
  snd (gbind g k s)
  = match fst (g s) with
    | (_, Return a) => snd (k a (snd (g s)))
    | (_, Raise _) => snd (g s)
    end.
Proof.
  unfold gbind. destruct (g s) as [[ys [a|e]] s']; [|reflexivity].
  cbn [fst snd]. destruct (k a s') as [[ys' r] s'']. reflexivity.
Qed.

Lemma stateless_gret {T A} (a : A) : stateless (T := T) (gret a).
Proof. intros s. reflexivity. Qed.

Lemma stateless_graise {T A} e : stateless (T := T) (A := A) (graise e).
Proof. intros s. reflexivity. Qed.

Lemma stateless_yield {T} (t : T) : stateless (yield t).
Proof. intros s. reflexivity. Qed.

Lemma stateless_lift {T A} (r : result A) : stateless (T := T) (await (lift r)).
Proof. intros s. reflexivity. Qed.

Lemma stateless_gbind {T A B} (g : Gen T A) (k : A -> Gen T B) :
  stateless g -> (forall a, stateless (k a)) -> stateless (gbind g k).
Proof.
  intros Hg Hk s. rewrite snd_gbind, Hg.
  destruct (fst (g s)) as [ys [a|e]]; [apply Hk|reflexivity].
Qed.

Lemma stateless_for_each {T} entries (body : json -> Gen T unit) :
  (forall entry, stateless (body entry)) -> stateless (for_each entries body).
Proof.
  intros Hbody. induction entries as [|entry entries IH]; cbn [for_each].
  - apply stateless_gret.
  - apply stateless_gbind; [apply Hbody|intros _; exact IH].
Qed.

Create HintDb stateless.
#[local] Hint Resolve stateless_gret stateless_graise stateless_yield stateless_lift
  : stateless.

Lemma after_requests_nil s : after_requests s [] = s.
Proof.
  unfold after_requests. rewrite app_nil_r. destruct s as [me [cl se]]. reflexivity.
Qed.

Lemma await_eq {T A} (m : M A) s r s' :
  m s = (r, s') -> await (T := T) m s = (([], r), s').
Proof. intros Hm. unfold await. rewrite Hm. reflexivity. Qed.

Lemma call_any (h : handler) : call h = _api_get_request.
Proof. destruct h; reflexivity. Qed.

Lemma dict_set_set (d : pydict) k v v' :
  dict_set (dict_set d k v) k v' = dict_set d k v'.
Proof.
  induction d as [|[k' w] d IH]; simpl.
  - rewrite String.eqb_refl. reflexivity.
  - destruct (String.eqb k' k) eqn:E; simpl; rewrite E; [reflexivity|].
    rewrite IH. reflexivity.
Qed.

(** A body without [items] lists no entries. *)
Lemma no_items_no_entries (d : pydict) :
  dict_lookup d "items" = None ->
  dict_get_default d "items" (JArr []) = JArr (map JObj []).
Proof. intros Hnone. unfold dict_get_default. rewrite Hnone. reflexivity. Qed.

Lemma check_request_return_passes r s :
  passes (status r) -> _check_request_return r s = (Return r, s).
Proof.
  intros [H500 H4xx]. unfold _check_request_return, bind, ret.
  destruct (Z.eqb_spec (status r) 500); [lia|].
  destruct (Z.eqb_spec (status r) 400); [lia|].
  destruct (Z.eqb_spec (status r) 404); [lia|].
  destruct (Z.eqb_spec (status r) 401); [lia|].
  destruct (Z.eqb_spec (status r) 403); [lia|].
  destruct (Z.leb_spec 400 (status r)), (Z.ltb_spec (status r) 500);
    simpl; try reflexivity; lia.
Qed.

Lemma check_request_return_forbidden r d e first others m s :
  status r = 403 ->
  resp_json r = Return (JObj d) ->
  dict_lookup d "error" = Some (JObj e) ->
  dict_lookup e "errors" = Some (JArr (JObj first :: others)) ->
  dict_lookup first "message" = Some m ->
  _check_request_return r s = (Raise (ForbiddenError m), s).
Proof.
  intros Hst Hbody Herror Herrors Hmessage.
  unfold _check_request_return, bind, lift, raise.
  rewrite Hst, Hbody. simpl. rewrite Herror. simpl. rewrite Herrors. simpl.
  rewrite Hmessage. reflexivity.
Qed.

Lemma api_get_request_reply delay latency r i url data s :
  latency < delay -> passes (status r) ->
  _api_get_request delay (Reply latency r) (Some i) url data s
  = (Return r,
     after_requests s
       [Request url
          [("Authorization", "Bearer " +:+ format_token (_user_auth_token (self s)))]
          data]).
Proof.
  intros Hlat Hpass.
  unfold _api_get_request, session_get, bind, get_self, get_env, set_env, ret; simpl.
  destruct (Z.ltb_spec latency delay); [|lia]. simpl.
  rewrite check_request_return_passes by assumption. reflexivity.
Qed.

Lemma api_get_request_exceeds delay x i url data s :
  exceeds delay x ->
  _api_get_request delay x (Some i) url data s
  = (Raise TimeoutError,
     after_requests s
       [Request url
          [("Authorization", "Bearer " +:+ format_token (_user_auth_token (self s)))]
          data]).
Proof.
  intros Hslow.
  unfold _api_get_request, session_get, bind, get_self, get_env, set_env, raise; simpl.
  destruct x as [latency r|latency e|]; simpl in *; try reflexivity;
    destruct (Z.ltb_spec latency delay); try lia; reflexivity.
Qed.

Section EngineFacts.

Context {T : Type}.
Variables (url : string) (return_type : pydict -> result T).
Variables (body_data : option pydict) (split_lists : bool).

Local Abbreviation pass := (iteration _api_get_request url return_type body_data split_lists).
Local Abbreviation loop := (while_loop _api_get_request url return_type body_data split_lists).

Lemma for_each_construct (entries : list pydict) (ys : list T) (s : state) :
  map return_type entries = map Return ys ->
  for_each (map JObj entries)
    (fun entry => record <~ await (lift (construct return_type entry));; yield record) s
  = ((ys, Return tt), s).
Proof.
  revert ys. induction entries as [|e entries IH]; intros [|y ys] Hys;
    simpl in Hys; try discriminate; [reflexivity|].
  injection Hys as Hy Hys.
  cbn [map for_each].
  eapply gbind_return with (ys := [y]); [|apply (IH ys Hys)|reflexivity].
  eapply gbind_return with (ys := []); [| |reflexivity].
  - unfold await, lift, construct. rewrite Hy. reflexivity.
  - reflexivity.
Qed.

(** A pass over a page: its records, its cursor, one request. *)
Lemma iteration_serves x (p : list pydict * json) ys i url_params s :
  session (self s) = Some i ->
  serves (session_timeout (self s)) x p ->
  map return_type p.1 = map Return ys ->
  pass x url_params s
  = ((ys, Return p.2),
     after_requests s
       [Request (build_url (base_url +:+ url) url_params true split_lists)
          [("Authorization", "Bearer " +:+ format_token (_user_auth_token (self s)))]
          body_data]).
Proof.
  intros Hsess (latency & r & d & -> & Hlat & Hpass & Hct & Hbody & Hitems & Hnext) Hys.
  unfold iteration.
  eapply gbind_return with (ys := []); [reflexivity| |reflexivity].
  eapply gbind_return with (ys := []); [| |reflexivity].
  { cbn [self]. rewrite Hsess. apply await_eq. apply api_get_request_reply; assumption. }
  rewrite Hct. cbn [String.eqb Ascii.eqb Bool.eqb negb].
  eapply gbind_return with (ys := []);
    [apply await_eq; unfold lift; rewrite Hbody; reflexivity| |reflexivity].
  eapply gbind_return with (ys := []);
    [apply await_eq; unfold lift, attr_get_default; rewrite Hitems; reflexivity|
    |reflexivity].
  eapply gbind_return with (ys := []); [reflexivity| |reflexivity].
  eapply gbind_return with (ys := ys);
    [apply for_each_construct; assumption| |symmetry; apply app_nil_r].
  eapply gbind_return with (ys := []);
    [apply await_eq; unfold lift, attr_get; rewrite Hnext; reflexivity| |reflexivity].
  reflexivity.
Qed.

(** A pass whose request fails: no record. *)
Lemma iteration_raises x e i url_params s s' :
  session (self s) = Some i ->
  _api_get_request (session_timeout (self s)) x (Some i)
    (build_url (base_url +:+ url) url_params true split_lists) body_data s
  = (Raise e, s') ->
  pass x url_params s = (([], Raise e), s').
Proof.
  intros Hsess Hreq.
  unfold iteration.
  eapply gbind_return with (ys := []); [reflexivity| |reflexivity].
  eapply gbind_raise. cbn [self]. rewrite Hsess. apply await_eq. exact Hreq.
Qed.

(** A pass whose request does not come back in time. *)
Lemma iteration_exceeds x i url_params s :
  session (self s) = Some i ->
  exceeds (session_timeout (self s)) x ->
  pass x url_params s
  = (([], Raise TimeoutError),
     after_requests s
       [Request (build_url (base_url +:+ url) url_params true split_lists)
          [("Authorization", "Bearer " +:+ format_token (_user_auth_token (self s)))]
          body_data]).
Proof.
  intros Hsess Hslow. eapply iteration_raises; [exact Hsess|].
  apply api_get_request_exceeds. exact Hslow.
Qed.

(** A pass that gets a 403 with a message where the classifier looks. *)
Lemma iteration_forbidden latency r d e first others m i url_params s :
  session (self s) = Some i ->
  latency < session_timeout (self s) ->
  status r = 403 ->
  resp_json r = Return (JObj d) ->
  dict_lookup d "error" = Some (JObj e) ->
  dict_lookup e "errors" = Some (JArr (JObj first :: others)) ->
  dict_lookup first "message" = Some m ->
  pass (Reply latency r) url_params s
  = (([], Raise (ForbiddenError m)),
     after_requests s
       [Request (build_url (base_url +:+ url) url_params true split_lists)
          [("Authorization", "Bearer " +:+ format_token (_user_auth_token (self s)))]
          body_data]).
Proof.
  intros Hsess Hlat Hst Hbody Herror Herrors Hmessage.
  eapply iteration_raises; [exact Hsess|].
  unfold _api_get_request, session_get, bind, get_self, get_env, set_env, ret; simpl.
  destruct (Z.ltb_spec latency (session_timeout (self s))); [|lia]. simpl.
  erewrite check_request_return_forbidden by eassumption. reflexivity.
Qed.

(** A pass that gets, in time and through the classifier, a response that
    does not declare JSON. *)
Lemma iteration_content_type latency r i url_params s :
  session (self s) = Some i ->
  latency < session_timeout (self s) ->
  passes (status r) ->
  content_type r <> "application/json" ->
  pass (Reply latency r) url_params s
  = (([], Raise (YouTubeAPIError (Some "Unexpected response type"))),
     after_requests s
       [Request (build_url (base_url +:+ url) url_params true split_lists)
          [("Authorization", "Bearer " +:+ format_token (_user_auth_token (self s)))]
          body_data]).
Proof.
  intros Hsess Hlat Hpass Hct.
  unfold iteration.
  eapply gbind_return with (ys := []); [reflexivity| |reflexivity].
  eapply gbind_return with (ys := []); [| |reflexivity].
  { cbn [self]. rewrite Hsess. apply await_eq. apply api_get_request_reply; assumption. }
  destruct (String.eqb_spec (content_type r) "application/json") as [Heq|_];
    [contradiction|]. reflexivity.
Qed.

Lemma after_requests_app s rqs rqs' :
  after_requests (after_requests s rqs) rqs' = after_requests s (rqs ++ rqs').
Proof. unfold after_requests. simpl. rewrite app_assoc. reflexivity. Qed.

Lemma page_request_set me url' url_params c body_data' split_lists' c' :
  page_request me url' (dict_set url_params "pageToken" c) body_data' split_lists' c'
  = page_request me url' url_params body_data' split_lists' c'.
Proof. unfold page_request. rewrite dict_set_set. reflexivity. Qed.

Lemma while_loop_done url_params script s :
  loop false JNull url_params script s = (([], Return tt), s).
Proof. destruct script; reflexivity. Qed.

(** When the script has run out, the request goes out and the timeout
    fires: the loop never ends on its own there. *)
Lemma while_loop_exhausted _after url_params i s :
  session (self s) = Some i ->
  loop true _after url_params [] s
  = (([], Raise TimeoutError),
     after_requests s
       [page_request (self s) url url_params body_data split_lists _after]).
Proof.
  intros Hsess. cbn [while_loop orb].
  eapply gbind_raise. apply (iteration_exceeds Silent i); [exact Hsess|exact I].
Qed.

(** The loop over pages that name a next cursor, followed by one more pass
    that ends the iteration. *)
Lemma while_loop_run (more : list (list pydict * json)) :
  forall answers x tail s _first _after url_params ys ys_x r s' i,
    session (self s) = Some i ->
    _first = true \/ _after <> JNull ->
    Forall2 (serves (session_timeout (self s))) answers more ->
    Forall (fun p => p.2 <> JNull) more ->
    map return_type (concat (map fst more)) = map Return ys ->
    pass x (dict_set url_params "pageToken" (List.last (cursors _after more) JNull))
      (after_requests s
         (map (page_request (self s) url url_params body_data split_lists)
            (removelast (cursors _after more))))
    = ((ys_x, r), s') ->
    r = Return JNull \/ (exists e, r = Raise e) ->
    loop _first _after url_params (answers ++ x :: tail) s
    = ((ys ++ ys_x, match r with Return _ => Return tt | Raise e => Raise e end), s').
Proof.
  induction more as [|p more IH];
    intros answers x tail s _first _after url_params ys ys_x r s' i
      Hsess Henter Hserved Hnext Hys Hlast Hend.
  - apply Forall2_nil_inv_r in Hserved as ->.
    destruct ys; [|discriminate]. cbn [app while_loop].
    replace (_first || negb (is_None _after)) with true
      by (destruct Henter as [->|H]; [reflexivity|];
          destruct _after; try congruence; symmetry; apply orb_true_r).
    cbn [cursors map removelast List.last] in Hlast.
    replace (after_requests s []) with s in Hlast
      by (unfold after_requests; rewrite app_nil_r; destruct s as [? []]; reflexivity).
    destruct Hend as [->|[e ->]].
    + eapply gbind_return;
        [exact Hlast|apply while_loop_done|symmetry; apply app_nil_r].
    + eapply gbind_raise. exact Hlast.
  - apply Forall2_cons_inv_r in Hserved as (x0 & answers' & Hx0 & Hserved & ->).
    apply Forall_cons in Hnext as [Hp Hnext].
    cbn [map concat] in Hys. rewrite map_app in Hys.
    symmetry in Hys. apply map_eq_app in Hys as (ys0 & ys1 & -> & Hys0 & Hys1).
    cbn [app while_loop].
    replace (_first || negb (is_None _after)) with true
      by (destruct Henter as [->|H]; [reflexivity|];
          destruct _after; try congruence; symmetry; apply orb_true_r).
    rewrite <- app_assoc.
    eapply gbind_return;
      [eapply iteration_serves; [exact Hsess|exact Hx0|symmetry; exact Hys0]
      | |reflexivity].
    eapply (IH answers' x tail _ false p.2 _ ys1 ys_x r s' i); try assumption.
    + right. exact Hp.
    + symmetry. exact Hys1.
    + rewrite dict_set_set, after_requests_app.
      cbn [cursors map removelast List.last] in Hlast.
      cbn [cursors after_requests self app].
      rewrite (map_ext _ _ (page_request_set (self s) url url_params _after
                              body_data split_lists)).
      exact Hlast.
Qed.

(** *** What any pass and any loop do to the state *)

Lemma iteration_state x i url_params s :
  session (self s) = Some i ->
  snd (pass x url_params s)
  = after_requests s
      [Request (build_url (base_url +:+ url) url_params true split_lists)
         [("Authorization", "Bearer " +:+ format_token (_user_auth_token (self s)))]
         body_data].
Proof.
  intros Hsess. unfold iteration.
  rewrite snd_gbind. cbn [await get_self fst snd].
  rewrite snd_gbind, Hsess.
  match goal with |- context [await ?m s] => set (fetch := await m) end.
  assert (Hs : snd (fetch s)
               = after_requests s
                   [Request (build_url (base_url +:+ url) url_params true split_lists)
                      [("Authorization",
                        "Bearer " +:+ format_token (_user_auth_token (self s)))]
                      body_data]).
  { subst fetch. unfold await.
    pose proof (api_get_request_state (session_timeout (self s)) x i
                  (build_url (base_url +:+ url) url_params true split_lists)
                  body_data s) as Hs.
    rewrite <- authorization_eq in Hs.
    destruct (_api_get_request _ _ _ _ _ s) as [r s1]. exact Hs. }
  destruct (fst (fetch s)) as [ys [r|e]]; [|exact Hs].
  rewrite <- Hs.
  match goal with |- snd (?g ?s1) = ?s1 => enough (stateless g) as H by apply H end.
  destruct (negb _); [apply stateless_graise|].
  repeat (apply stateless_gbind; [|intros]); auto with stateless.
  apply stateless_for_each. intros entry.
  apply stateless_gbind; auto with stateless.
Qed.

Lemma while_loop_state script :
  forall _first _after url_params s i,
    session (self s) = Some i ->
    exists rqs,
      snd (loop _first _after url_params script s) = after_requests s rqs
      /\ (_first = true ->
          exists rqs',
            rqs = page_request (self s) url url_params body_data split_lists _after
                  :: rqs').
Proof.
  induction script as [|x script IH]; intros _first _after url_params s i Hsess;
    cbn [while_loop];
    (destruct (_first || negb (is_None _after)) eqn:Hcond;
     [|exists []; split;
         [symmetry; apply after_requests_nil
         |intros ->; discriminate]]).
  - exists [page_request (self s) url url_params body_data split_lists _after].
    split; [|eauto].
    rewrite snd_gbind, (iteration_state _ i) by assumption.
    destruct (fst (pass Silent _ s)) as [ys [a|e]]; reflexivity.
  - rewrite snd_gbind, (iteration_state _ i) by assumption.
    destruct (fst (pass x _ s)) as [ys [a|e]].
    + destruct (IH false a (dict_set url_params "pageToken" _after)
                  (after_requests s
                     [page_request (self s) url url_params body_data split_lists _after])
                  i Hsess) as (rqs & Hrqs & _).
      exists (page_request (self s) url url_params body_data split_lists _after :: rqs).
      split; [|eauto].
      etransitivity; [exact Hrqs|]. rewrite after_requests_app. reflexivity.
    + exists [page_request (self s) url url_params body_data split_lists _after].
      split; [reflexivity|eauto].
Qed.

Lemma while_loop_headers script :
  forall _first _after url_params s i,
    session (self s) = Some i ->
    exists rqs,
      snd (loop _first _after url_params script s) = after_requests s rqs
      /\ Forall (fun rq => req_headers rq = authorization (self s)) rqs.
Proof.
  induction script as [|x script IH]; intros _first _after url_params s i Hsess;
    cbn [while_loop];
    (destruct (_first || negb (is_None _after)) eqn:Hcond;
     [|exists []; split; [symmetry; apply after_requests_nil|constructor]]);
    rewrite snd_gbind, (iteration_state _ i) by assumption.
  - eexists [_]. split.
    + destruct (fst (pass Silent _ s)) as [ys [a|e]]; reflexivity.
    + repeat constructor. apply authorization_eq.
  - destruct (fst (pass x _ s)) as [ys [a|e]].
    + edestruct (IH false a (dict_set url_params "pageToken" _after))
        as (rqs & Hrqs & Hall);
        [|eexists (_ :: rqs); split;
          [etransitivity; [exact Hrqs|]; rewrite after_requests_app; reflexivity|]].
      * exact Hsess.
      * constructor; [apply authorization_eq|exact Hall].
    + eexists [_]. split; [reflexivity|].
      repeat constructor. apply authorization_eq.
Qed.

End EngineFacts.

Lemma build_generator_eq {T} req url url_params (return_type : pydict -> result T)
    body_data split_lists script s :
  _build_generator req url url_params return_type body_data split_lists script s
  = except_timeout
      (while_loop _api_get_request url return_type body_data split_lists true
         (dict_get url_params "nextPageToken") url_params script)
      (with_session s).
Proof.
  unfold _build_generator. rewrite call_any.
  etransitivity; [apply gbind_silent with (a := self s) (s' := s); reflexivity|].
  cbn beta. unfold with_session.
  destruct (session (self s)) as [i|] eqn:Hsess.
  - etransitivity; [apply gbind_silent with (a := tt) (s' := s); reflexivity|].
    reflexivity.
  - etransitivity; [eapply gbind_silent; reflexivity|]. reflexivity.
Qed.

(** ** Whole runs of the engine *)

Lemma with_session_session s : exists i, session (self (with_session s)) = Some i.
Proof. unfold with_session. destruct (session (self s)) eqn:E; simpl; eauto. Qed.

Lemma with_session_timeout s :
  session_timeout (self (with_session s)) = session_timeout (self s).
Proof. unfold with_session. destruct (session (self s)); reflexivity. Qed.

Lemma with_session_sent s : sent (env (with_session s)) = sent (env s).
Proof. unfold with_session. destruct (session (self s)); reflexivity. Qed.

Lemma with_session_token s :
  _user_auth_token (self (with_session s)) = _user_auth_token (self s).
Proof. unfold with_session. destruct (session (self s)); reflexivity. Qed.

Lemma page_request_with_session s url url_params body_data split_lists :
  page_request (self (with_session s)) url url_params body_data split_lists
  = page_request (self s) url url_params body_data split_lists.
Proof. unfold with_session. destruct (session (self s)); reflexivity. Qed.

Section Runs.

Context {T : Type}.
Variables (req url : string) (url_params : pydict).
Variables (return_type : pydict -> result T).
Variables (body_data : option pydict) (split_lists : bool).

Local Abbreviation engine :=
  (_build_generator req url url_params return_type body_data split_lists).

(** Pages that name a next cursor, then one more exchange [x] whose pass
    ends the iteration with [r]. *)
Lemma build_generator_run more answers x tail ys ys_x r s s' :
  Forall2 (serves (session_timeout (self s))) answers more ->
  Forall (fun p => p.2 <> JNull) more ->
  map return_type (concat (map fst more)) = map Return ys ->
  iteration _api_get_request url return_type body_data split_lists x
    (dict_set url_params "pageToken"
       (List.last (cursors (dict_get url_params "nextPageToken") more) JNull))
    (after_requests (with_session s)
       (map (page_request (self s) url url_params body_data split_lists)
          (removelast (cursors (dict_get url_params "nextPageToken") more))))
  = ((ys_x, r), s') ->
  r = Return JNull \/ (exists e, r = Raise e) ->
  engine (answers ++ x :: tail) s
  = ((ys ++ ys_x,
      match r with
      | Return _ => Return tt
      | Raise TimeoutError => Raise (YouTubeBackendError "Timeout occurred")
      | Raise e => Raise e
      end), s').
Proof.
  intros Hserved Hnext Hys Hlast Hend.
  rewrite build_generator_eq.
  destruct (with_session_session s) as [i Hsess].
  unfold except_timeout.
  erewrite (while_loop_run url return_type body_data split_lists more);
    [ | exact Hsess | left; reflexivity
      | rewrite with_session_timeout; exact Hserved | exact Hnext | exact Hys
      | rewrite page_request_with_session; exact Hlast | exact Hend ].
  destruct Hend as [->|[e ->]]; [reflexivity|]. destruct e; reflexivity.
Qed.

Lemma before_last_session s more :
  exists i,
    session (self (before_last url url_params body_data split_lists s more)) = Some i.
Proof. apply with_session_session. Qed.

Lemma last_request s more :
  after_requests (before_last url url_params body_data split_lists s more)
    [Request
       (build_url (base_url +:+ url)
          (dict_set url_params "pageToken"
             (List.last (cursors (dict_get url_params "nextPageToken") more) JNull))
          true split_lists)
       [("Authorization",
         "Bearer "
         +:+ format_token
               (_user_auth_token
                  (self (before_last url url_params body_data split_lists s more))))]
       body_data]
  = after_last url url_params body_data split_lists s more.
Proof.
  unfold before_last, after_last. rewrite after_requests_app. f_equal.
  cbn [self after_requests]. rewrite with_session_token.
  change [?rq] with (map (page_request (self s) url url_params body_data split_lists)
                       [List.last (cursors (dict_get url_params "nextPageToken") more) JNull]).
  rewrite <- map_app, <- app_removelast_last; [reflexivity|discriminate].
Qed.

Lemma after_last_sent s more :
  length (sent (env (after_last url url_params body_data split_lists s more)))
  = (length (sent (env s)) + S (length more))%nat.
Proof.
  unfold after_last, cursors. cbn [after_requests env sent].
  rewrite with_session_sent, length_app, length_map. cbn [length].
  rewrite length_map. reflexivity.
Qed.

(** The last page of a run. *)
Lemma build_generator_pages more last answers x tail ys s :
  Forall2 (serves (session_timeout (self s))) answers more ->
  serves (session_timeout (self s)) x (last, JNull) ->
  Forall (fun p => p.2 <> JNull) more ->
  map return_type (concat (map fst (more ++ [(last, JNull)]))) = map Return ys ->
  engine (answers ++ x :: tail) s
  = ((ys, Return tt), after_last url url_params body_data split_lists s more).
Proof.
  intros Hserved Hx Hnext Hys.
  rewrite map_app, concat_app, map_app in Hys. cbn [map concat fst] in Hys.
  rewrite app_nil_r in Hys.
  symmetry in Hys. apply map_eq_app in Hys as (ys0 & ys1 & -> & Hys0 & Hys1).
  destruct (before_last_session s more) as [i Hsess].
  eapply (build_generator_run more answers x tail ys0 ys1 (Return JNull));
    [exact Hserved|exact Hnext|symmetry; exact Hys0| |left; reflexivity].
  fold (before_last url url_params body_data split_lists s more).
  erewrite iteration_serves with (p := (last, JNull));
    [ | exact Hsess
      | unfold before_last; cbn [self after_requests];
        rewrite with_session_timeout; exact Hx
      | symmetry; exact Hys1 ].
  rewrite last_request. reflexivity.
Qed.

(** A last pass that raises [e] before it yields. *)
Lemma build_generator_fails more answers x tail ys e s :
  Forall2 (serves (session_timeout (self s))) answers more ->
  Forall (fun p => p.2 <> JNull) more ->
  map return_type (concat (map fst more)) = map Return ys ->
  (forall i url_params' s1,
      session (self s1) = Some i ->
      session_timeout (self s1) = session_timeout (self s) ->
      iteration _api_get_request url return_type body_data split_lists x url_params' s1
      = (([], Raise e),
         after_requests s1
           [Request (build_url (base_url +:+ url) url_params' true split_lists)
              [("Authorization", "Bearer " +:+ format_token (_user_auth_token (self s1)))]
              body_data])) ->
  engine (answers ++ x :: tail) s
  = ((ys,
      match e with
      | TimeoutError => Raise (YouTubeBackendError "Timeout occurred")
      | _ => Raise e
      end), after_last url url_params body_data split_lists s more).
Proof.
  intros Hserved Hnext Hys Hx.
  destruct (before_last_session s more) as [i Hsess].
  rewrite <- (app_nil_r ys).
  eapply (build_generator_run more answers x tail ys [] (Raise e));
    [exact Hserved|exact Hnext|exact Hys| |right; eauto].
  fold (before_last url url_params body_data split_lists s more).
  erewrite Hx; [ | exact Hsess | ].
  - rewrite last_request. reflexivity.
  - unfold before_last. cbn [self after_requests]. apply with_session_timeout.
Qed.

(** C1. A run over N pages, of which all but the last name a next cursor,
    yields the records of the entries of the pages, page after page and in
    the order of each page (a page without [items] has no entries), then
    ends; it sends N requests, one for the initial cursor of the parameter
    mapping (present or not) and one for each cursor a page names.  What the
    transport would do with further requests does not matter.  With a single
    page the one request is the one for the initial cursor, whether the
    parameter mapping holds one or not. *)
Theorem pagination_yields_all_pages
    (more : list (list pydict * json)) (last : list pydict)
    (answers rest : list exchange) (ys : list T) (s : state) :
  let pages := more ++ [(last, JNull)] in
  Forall2 (serves (session_timeout (self s))) answers pages ->
  Forall (fun p => p.2 <> JNull) more ->
  map return_type (concat (map fst pages)) = map Return ys ->
  let run := engine (answers ++ rest) s in
  run.1 = (ys, Return tt)
  /\ sent (env run.2)
     = sent (env s)
       ++ map (page_request (self s) url url_params body_data split_lists)
            (cursors (dict_get url_params "nextPageToken") more)
  /\ length (sent (env run.2)) = (length (sent (env s)) + length pages)%nat
  /\ (more = [] ->
      sent (env run.2)
      = sent (env s)
        ++ [page_request (self s) url url_params body_data split_lists
              (dict_get url_params "nextPageToken")]).
Proof.
  intros pages Hserved Hnext Hys run. subst pages run.
  apply Forall2_app_inv_r in Hserved as (answers' & xs & Hserved & Hx & ->).
  apply Forall2_cons_inv_r in Hx as (x & nil' & Hx & Hnil & ->).
  apply Forall2_nil_inv_r in Hnil as ->.
  rewrite <- app_assoc. cbn [app].
  rewrite (build_generator_pages more last answers' x rest ys s) by assumption.
  cbn [fst snd]. split; [reflexivity|]. split; [|split].
  - unfold after_last. cbn [after_requests env sent].
    rewrite with_session_sent. reflexivity.
  - rewrite after_last_sent, length_app. cbn [length]. lia.
  - intros ->. unfold after_last. cbn [after_requests env sent cursors map].
    rewrite with_session_sent. reflexivity.
Qed.

(** C3 (as amended). A response with status 403 whose JSON body has the
    shape [{"error": {"errors": [{"message": m}, ...]}}] makes the classifier
    raise [ForbiddenError] with [m], the message of the first entry.  A run of
    the engine that gets such a response ends with that error; it has yielded
    the records of the pages before it and nothing else, so no record at all
    when the response answers the first request; and it sends no request
    after it. *)
Theorem forbidden_response
    (more : list (list pydict * json)) (answers rest : list exchange)
    (latency : Z) (r : response) (d e first : pydict) (others : list json)
    (m : json) (ys : list T) (s : state) :
  Forall2 (serves (session_timeout (self s))) answers more ->
  Forall (fun p => p.2 <> JNull) more ->
  map return_type (concat (map fst more)) = map Return ys ->
  latency < session_timeout (self s) ->
  status r = 403 ->
  resp_json r = Return (JObj d) ->
  dict_lookup d "error" = Some (JObj e) ->
  dict_lookup e "errors" = Some (JArr (JObj first :: others)) ->
  dict_lookup first "message" = Some m ->
  let run := engine (answers ++ Reply latency r :: rest) s in
  _check_request_return r s = (Raise (ForbiddenError m), s)
  /\ run.1 = (ys, Raise (ForbiddenError m))
  /\ (more = [] -> ys = [])
  /\ length (sent (env run.2)) = (length (sent (env s)) + length more + 1)%nat.
Proof.
  intros Hserved Hnext Hys Hlat Hst Hbody Herror Herrors Hmessage run. subst run.
  split; [eapply check_request_return_forbidden; eassumption|].
  rewrite (build_generator_fails more answers _ rest ys (ForbiddenError m) s);
    try assumption.
  - cbn [fst snd]. split; [reflexivity|]. split.
    + intros ->. destruct ys; [reflexivity|discriminate].
    + rewrite after_last_sent. lia.
  - intros i url_params' s1 Hsess Htime.
    eapply iteration_forbidden; try eassumption. rewrite Htime. exact Hlat.
Qed.

(** C4. When a page fetch is not done within the timeout of the client
    (10 unless the constructor was given another), the run ends with
    [YouTubeBackendError("Timeout occurred")]; it has yielded the records of
    the pages before and no other; and the request that timed out is the last
    one sent: nothing is tried again, whatever the transport would answer. *)
Theorem timeout_aborts
    (more : list (list pydict * json)) (answers rest : list exchange)
    (x : exchange) (ys : list T) (s : state)
    (app_id app_secret : option string) (external : option nat)
    (auto_refresh : option bool) :
  Forall2 (serves (session_timeout (self s))) answers more ->
  Forall (fun p => p.2 <> JNull) more ->
  map return_type (concat (map fst more)) = map Return ys ->
  exceeds (session_timeout (self s)) x ->
  let run := engine (answers ++ x :: rest) s in
  run.1 = (ys, Raise (YouTubeBackendError "Timeout occurred"))
  /\ length (sent (env run.2)) = (length (sent (env s)) + length more + 1)%nat
  /\ session_timeout (__init__ app_id app_secret external None auto_refresh) = 10.
Proof.
  intros Hserved Hnext Hys Hslow run. subst run.
  rewrite (build_generator_fails more answers x rest ys TimeoutError s);
    try assumption.
  - cbn [fst snd]. split; [reflexivity|]. split; [|reflexivity].
    rewrite after_last_sent. lia.
  - intros i url_params' s1 Hsess Htime.
    apply iteration_exceeds with (i := i); [exact Hsess|].
    rewrite Htime. exact Hslow.
Qed.

(** C5 (as amended). When a response comes back in time with a status the
    classifier lets through (not 500, not 4xx) and its content type is not
    [application/json], the run ends with
    [YouTubeAPIError("Unexpected response type")], whatever the body holds;
    it has yielded the records of the pages before and no other, and sends no
    further request. *)
Theorem unexpected_response_type
    (more : list (list pydict * json)) (answers rest : list exchange)
    (latency : Z) (r : response) (ys : list T) (s : state) :
  Forall2 (serves (session_timeout (self s))) answers more ->
  Forall (fun p => p.2 <> JNull) more ->
  map return_type (concat (map fst more)) = map Return ys ->
  latency < session_timeout (self s) ->
  passes (status r) ->
  content_type r <> "application/json" ->
  let run := engine (answers ++ Reply latency r :: rest) s in
  run.1 = (ys, Raise (YouTubeAPIError (Some "Unexpected response type")))
  /\ length (sent (env run.2)) = (length (sent (env s)) + length more + 1)%nat.
Proof.
  intros Hserved Hnext Hys Hlat Hpass Hct run. subst run.
  rewrite (build_generator_fails more answers _ rest ys
             (YouTubeAPIError (Some "Unexpected response type")) s);
    try assumption.
  - cbn [fst snd]. split; [reflexivity|]. rewrite after_last_sent. lia.
  - intros i url_params' s1 Hsess Htime.
    apply iteration_content_type with (i := i); try assumption.
    rewrite Htime. exact Hlat.
Qed.

End Runs.

(** ** Histories: sessions and credentials *)

Lemma snd_except_timeout {T A} (g : Gen T A) s :
  snd (except_timeout g s) = snd (g s).
Proof.
  unfold except_timeout. destruct (g s) as [[ys [a|e]] s']; [reflexivity|].
  destruct e; reflexivity.
Qed.

(** Any run of the engine: a session is there afterwards, the request for
    the initial cursor went out, maybe others, and nothing else changed. *)
Lemma build_generator_state {T} req url url_params (return_type : pydict -> result T)
    body_data split_lists script s :
  exists rqs,
    snd (_build_generator req url url_params return_type body_data split_lists script s)
    = after_requests (with_session s)
        (page_request (self s) url url_params body_data split_lists
           (dict_get url_params "nextPageToken") :: rqs).
Proof.
  rewrite build_generator_eq, snd_except_timeout.
  destruct (with_session_session s) as [i Hsess].
  destruct (while_loop_state url return_type body_data split_lists script true
              (dict_get url_params "nextPageToken") url_params _ i Hsess)
    as (rqs & Hrqs & Hfirst).
  destruct (Hfirst eq_refl) as [rqs' ->]. exists rqs'.
  rewrite Hrqs, page_request_with_session. reflexivity.
Qed.

(** C8. The executor hands every request to the session with the single
    header [Authorization: Bearer <token>], where the token is the one the
    client holds when the request is made; a client without a token sends
    the literal [Bearer None].  The request goes out whatever the token and
    whatever the transport then does.  So every request of a run of the
    engine carries that header. *)
Theorem api_get_request_authorization (delay : Z) (x : exchange) (i : nat)
    (url : string) (data : option pydict) (s : state) :
  let bearer :=
    [("Authorization",
      match _user_auth_token (self s) with
      | Some token => "Bearer " +:+ token
      | None => "Bearer None"
      end)] in
  sent (env (snd (_api_get_request delay x (Some i) url data s)))
  = sent (env s) ++ [ {| req_url := url; req_headers := bearer; req_json := data |} ]
  /\ (forall (T : Type) req url_params (return_type : pydict -> result T)
        split_lists script,
      exists rqs,
        sent (env (snd (_build_generator req url url_params return_type data
                          split_lists script s)))
        = sent (env s) ++ rqs
        /\ rqs <> []
        /\ Forall (fun rq => req_headers rq = bearer) rqs).
Proof.
  cbv zeta. split.
  - rewrite api_get_request_state. reflexivity.
  - intros T req url_params return_type split_lists script.
    rewrite build_generator_eq, snd_except_timeout.
    destruct (with_session_session s) as [j Hsess].
    destruct (while_loop_state url return_type data split_lists script true
                (dict_get url_params "nextPageToken") url_params _ j Hsess)
      as (rqs0 & Hrqs0 & Hfirst).
    destruct (while_loop_headers url return_type data split_lists script true
                (dict_get url_params "nextPageToken") url_params _ j Hsess)
      as (rqs & Hrqs & Hall).
    exists rqs. rewrite Hrqs. cbn [after_requests env sent].
    rewrite with_session_sent. split; [reflexivity|]. split.
    + destruct (Hfirst eq_refl) as [rqs' ->].
      rewrite Hrqs in Hrqs0.
      apply (f_equal (fun s => length (sent (env s)))) in Hrqs0.
      cbn [after_requests env sent] in Hrqs0. rewrite !length_app in Hrqs0.
      intros ->. cbn [length] in Hrqs0. lia.
    + unfold authorization in Hall. rewrite with_session_token in Hall. exact Hall.
Qed.

Ltac engine_state rqs :=
  match goal with
  | |- context [_build_generator ?req ?url ?params ?rt ?body ?split ?script ?s] =>
      destruct (build_generator_state req url params rt body split script s)
        as [rqs ->]
  end.

Lemma accessor_state o s :
  is_accessor o = true ->
  run_op o s = s \/ exists rqs, run_op o s = after_requests (with_session s) rqs.
Proof.
  destruct o as [token scopes refresh|ids script|ids script|script|];
    try discriminate; intros _; cbn [run_op].
  - destruct ids as [|id ids]; [left; reflexivity|right].
    unfold get_videos. engine_state rqs. eauto.
  - right. unfold get_channels, _get_channels. engine_state rqs. eauto.
  - right. unfold get_user_channels, _get_channels. engine_state rqs. eauto.
Qed.

Lemma set_user_authentication_state token scopes refresh s :
  let s' := snd (set_user_authentication token scopes refresh s) in
  session (self s') = session (self s)
  /\ _close_session (self s') = _close_session (self s)
  /\ env s' = env s.
Proof.
  unfold set_user_authentication, bind, get_self, raise, set_self; simpl.
  destruct (bool_decide (refresh = None) && auto_refresh_auth (self s)); [auto|].
  destruct scopes; auto.
Qed.

Lemma close_self s : self (snd (close s)) = self s.
Proof.
  unfold close, bind, get_self, session_close, get_env, set_env, ret; simpl.
  destruct (session (self s)); [|reflexivity].
  destruct (_close_session (self s)); reflexivity.
Qed.

(** A client built around a session of the caller keeps that session, never
    takes ownership, and leaves all sessions as they are. *)
Lemma run_ops_external ops : forall s e,
  session (self s) = Some e -> _close_session (self s) = false ->
  closed (env (run_ops ops s)) = closed (env s).
Proof.
  induction ops as [|o ops IH]; intros s e Hsess Hown; [reflexivity|].
  cbn [run_ops fold_left]. fold (run_ops ops (run_op o s)).
  assert (session (self (run_op o s)) = Some e
          /\ _close_session (self (run_op o s)) = false
          /\ closed (env (run_op o s)) = closed (env s)) as (H1 & H2 & H3).
  { destruct (is_accessor o) eqn:Hacc.
    - assert (with_session s = s) as Hws
        by (unfold with_session; rewrite Hsess; reflexivity).
      destruct (accessor_state o s Hacc) as [->|[rqs ->]]; [auto|].
      rewrite Hws. auto.
    - destruct o; try discriminate; cbn [run_op].
      + destruct (set_user_authentication_state token scopes refresh_token s)
          as (-> & -> & ->). auto.
      + unfold close, bind, get_self, ret; simpl. rewrite Hsess, Hown. auto. }
  rewrite (IH _ e H1 H2). exact H3.
Qed.

(** A client that owns its session keeps it and keeps owning it. *)
Lemma run_ops_owned ops : forall s i,
  session (self s) = Some i -> _close_session (self s) = true ->
  (i < length (closed (env s)))%nat ->
  session (self (run_ops ops s)) = Some i
  /\ _close_session (self (run_ops ops s)) = true
  /\ (i < length (closed (env (run_ops ops s))))%nat.
Proof.
  induction ops as [|o ops IH]; intros s i Hsess Hown Hlen; [auto|].
  cbn [run_ops fold_left]. fold (run_ops ops (run_op o s)).
  apply IH.
  - destruct (is_accessor o) eqn:Hacc.
    + assert (with_session s = s) as Hws
        by (unfold with_session; rewrite Hsess; reflexivity).
      destruct (accessor_state o s Hacc) as [->|[rqs ->]]; [auto|].
      rewrite Hws. exact Hsess.
    + destruct o; try discriminate; cbn [run_op].
      * destruct (set_user_authentication_state token scopes refresh_token s)
          as (-> & _ & _). exact Hsess.
      * rewrite close_self. exact Hsess.
  - destruct (is_accessor o) eqn:Hacc.
    + assert (with_session s = s) as Hws
        by (unfold with_session; rewrite Hsess; reflexivity).
      destruct (accessor_state o s Hacc) as [->|[rqs ->]]; [auto|].
      rewrite Hws. exact Hown.
    + destruct o; try discriminate; cbn [run_op].
      * destruct (set_user_authentication_state token scopes refresh_token s)
          as (_ & -> & _). exact Hown.
      * rewrite close_self. exact Hown.
  - destruct (is_accessor o) eqn:Hacc.
    + assert (with_session s = s) as Hws
        by (unfold with_session; rewrite Hsess; reflexivity).
      destruct (accessor_state o s Hacc) as [->|[rqs ->]]; [auto|].
      rewrite Hws. exact Hlen.
    + destruct o; try discriminate; cbn [run_op].
      * destruct (set_user_authentication_state token scopes refresh_token s)
          as (_ & _ & ->). exact Hlen.
      * unfold close, bind, get_self, session_close, get_env, set_env, ret; simpl.
        rewrite Hsess, Hown. unfold bind; simpl. rewrite length_insert. exact Hlen.
Qed.

Lemma close_owned s i :
  session (self s) = Some i -> _close_session (self s) = true ->
  (i < length (closed (env s)))%nat ->
  closed (env (snd (close s))) !! i = Some true.
Proof.
  intros Hsess Hown Hlen.
  unfold close, bind, get_self, session_close, get_env, set_env, ret; simpl.
  rewrite Hsess, Hown. unfold bind; simpl.
  apply list_lookup_insert_eq. exact Hlen.
Qed.

(** C7. [close] on a client without a session does nothing.  A client
    constructed with a session of the caller never closes it, whatever is
    done with the client: every session keeps its flag.  A session the engine
    created is open after the run and closed by [close], at once or after
    whatever else is done with the client.  A second [close] changes
    nothing. *)
Theorem close_respects_ownership :
  (forall s, session (self s) = None -> close s = (Return tt, s))
  /\ (forall app_id app_secret external timeout auto_refresh w ops,
      let s := St (__init__ app_id app_secret (Some external) timeout auto_refresh) w in
      closed (env (run_ops ops s)) = closed w)
  /\ (forall (T : Type) req url url_params (return_type : pydict -> result T)
        body_data split_lists script app_id app_secret timeout auto_refresh w,
      let s := St (__init__ app_id app_secret None timeout auto_refresh) w in
      let s1 := snd (_build_generator req url url_params return_type body_data
                       split_lists script s) in
      session (self s1) = Some (length (closed w))
      /\ closed (env s1) = closed w ++ [false]
      /\ close s1 = (Return tt,
                     {| self := self s1;
                        env := {| closed := closed w ++ [true];
                                  sent := sent (env s1) |} |})
      /\ (forall ops,
            closed (env (snd (close (run_ops ops s1)))) !! length (closed w)
            = Some true))
  /\ (forall s, close (snd (close s)) = (Return tt, snd (close s))).
Proof.
  split; [|split; [|split]].
  - intros s Hnone. unfold close, bind, get_self, ret; simpl.
    rewrite Hnone. reflexivity.
  - intros a b external timeout auto_refresh w ops s. subst s.
    exact (run_ops_external ops
             (St (__init__ a b (Some external) timeout auto_refresh) w)
             external eq_refl eq_refl).
  - intros T req url url_params return_type body_data split_lists script
      a b timeout auto_refresh w s s1. subst s1.
    destruct (build_generator_state req url url_params return_type body_data
                split_lists script s) as [rqs ->].
    subst s. split; [reflexivity|]. split; [reflexivity|]. split.
    + unfold close, bind, get_self, session_close, get_env, set_env, ret,
        after_requests, with_session; simpl. unfold bind; simpl.
      rewrite insert_app_r_alt by lia. rewrite Nat.sub_diag. reflexivity.
    + intros ops.
      match goal with |- context [run_ops ops ?s1] =>
        destruct (run_ops_owned ops s1 (length (closed w)))
          as (Hsess & Hown & Hlen);
          [reflexivity|reflexivity
          |cbn [after_requests with_session env closed self session __init__];
           rewrite length_app; cbn [length]; lia|]
      end.
      apply close_owned; assumption.
  - intros s.
    unfold close, bind, get_self, session_close, get_env, set_env, ret; simpl.
    destruct (session (self s)) as [i|] eqn:Hsess; [|simpl; rewrite Hsess; reflexivity].
    destruct (_close_session (self s)) eqn:Hown; simpl; rewrite Hsess, Hown;
      [|reflexivity].
    unfold bind; simpl. rewrite list_insert_insert_eq. reflexivity.
Qed.

(** ** Accessors and empty id lists *)

(** C9. [get_videos] with no id raises [ValueError] and leaves the state as it
    is: no session is made, no request sent.  [get_channels] with no id does
    not check: it is the engine run with [id] the empty string; its first
    request, for that [id], goes out whatever the transport does; and when
    the transport serves a last page, the run yields its records and ends
    without an error. *)
Theorem empty_id_lists (script : list exchange) (s : state) :
  get_videos [] script s
  = (([], Raise (ValueError "at least one video id has to be set")), s)
  /\ get_channels [] script
     = _build_generator "GET" "channels"
         [("part", JStr "snippet,contentDetails,statistics"); ("id", JStr "")]
         YouTubeChannel None false script
  /\ (exists rqs,
        sent (env (snd (get_channels [] script s)))
        = sent (env s)
          ++ {| req_url :=
                  build_url (base_url +:+ "channels")
                    [("part", JStr "snippet,contentDetails,statistics");
                     ("id", JStr ""); ("pageToken", JNull)] true false;
                req_headers :=
                  [("Authorization",
                    "Bearer " +:+ format_token (_user_auth_token (self s)))];
                req_json := None |} :: rqs)
  /\ (forall x entries ys,
        serves (session_timeout (self s)) x (entries, JNull) ->
        map YouTubeChannel entries = map Return ys ->
        fst (get_channels [] (x :: script) s) = (ys, Return tt)).
Proof.
  split; [reflexivity|]. split; [reflexivity|]. split.
  - unfold get_channels, _get_channels. engine_state rqs. exists rqs.
    cbn [after_requests env sent]. rewrite with_session_sent. reflexivity.
  - intros x entries ys Hx Hys.
    unfold get_channels, _get_channels.
    rewrite (build_generator_pages "GET" "channels" _ YouTubeChannel None false
               [] entries [] x script ys s); [reflexivity|constructor|exact Hx
               |constructor|].
    cbn [app map concat fst]. rewrite app_nil_r. exact Hys.
Qed.

(** ** The token getter *)

Lemma run_op_token o s :
  sets_credentials o s = false ->
  _user_auth_token (self (run_op o s)) = _user_auth_token (self s).
Proof.
  intros Hset. destruct (is_accessor o) eqn:Hacc.
  - destruct (accessor_state o s Hacc) as [->|[rqs ->]]; [reflexivity|].
    apply with_session_token.
  - destruct o; try discriminate; cbn [run_op].
    + cbn [sets_credentials] in Hset.
      destruct (fst (set_user_authentication token scopes refresh_token s)) eqn:Hr;
        [discriminate|].
      rewrite (set_user_authentication_raises _ _ _ _ _ Hr). reflexivity.
    + rewrite close_self. reflexivity.
Qed.

(** C10. A call [set_user_authentication(t, s, r)] with a non-empty [s], and
    with [r] given when auto-refresh is on, goes through, and the getter then
    returns [t].  On a new client the getter returns [None], and it keeps
    doing so through any history in which no such call went through. *)
Theorem auth_token_round_trip :
  (forall token scopes refresh_token s,
      scopes <> [] ->
      (auto_refresh_auth (self s) = true -> refresh_token <> None) ->
      let r := set_user_authentication token scopes refresh_token s in
      fst r = Return tt /\ get_user_auth_token (self (snd r)) = Some token)
  /\ (forall app_id app_secret session timeout auto_refresh w ops,
      let s := St (__init__ app_id app_secret session timeout auto_refresh) w in
      no_credentials_set ops s = true ->
      get_user_auth_token (self (run_ops ops s)) = None).
Proof.
  split.
  - intros token scopes refresh_token s Hscopes Hrefresh.
    unfold set_user_authentication, bind, get_self, raise, set_self; simpl.
    assert (bool_decide (refresh_token = None) && auto_refresh_auth (self s) = false)
      as ->.
    { destruct (auto_refresh_auth (self s)); [|apply andb_false_r].
      rewrite bool_decide_eq_false_2; [reflexivity|]. apply Hrefresh. reflexivity. }
    destruct scopes; [congruence|]. split; reflexivity.
  - intros app_id app_secret session timeout auto_refresh w ops s.
    assert (get_user_auth_token (self s) = None) as Hnew by reflexivity.
    clearbody s. revert s Hnew.
    induction ops as [|o ops IH]; intros s Hnew Hops; [exact Hnew|].
    cbn [no_credentials_set] in Hops. apply andb_true_iff in Hops as [Ho Hops].
    apply negb_true_iff in Ho.
    cbn [run_ops fold_left]. apply IH; [|exact Hops].
    unfold get_user_auth_token in *. rewrite run_op_token; assumption.
Qed.

(** * Further properties *)

(** ** The classifier, status by status *)

(** The classifier never looks at the state. *)
Lemma check_request_return_indep r s s' :
  fst (_check_request_return r s) = fst (_check_request_return r s').
Proof.
  unfold _check_request_return, bind, lift, raise, ret.
  repeat (case_match; simplify_eq; simpl); reflexivity.
Qed.


(** X1. For the statuses 500, 404 and 401, and for every 4xx status other
    than 400, 401, 403 and 404, the status alone decides the error: the body
    and the content type of the response are not looked at. *)
Theorem status_alone_decides (r : response) (s : state) :
  (status r = 500 ->
   _check_request_return r s = (Raise (YouTubeBackendError "Internal Server Error"), s))
  /\ (status r = 404 ->
      _check_request_return r s = (Raise YouTubeResourceNotFoundError, s))
  /\ (status r = 401 ->
      _check_request_return r s = (Raise UnauthorizedError, s))
  /\ (400 <= status r < 500 ->
      status r <> 400 -> status r <> 401 -> status r <> 403 -> status r <> 404 ->
      _check_request_return r s = (Raise (YouTubeAPIError None), s)).
Proof.
  unfold _check_request_return, raise_for_status, bind, lift, raise, ret.
  repeat split.
  - intros ->. reflexivity.
  - intros ->. reflexivity.
  - intros ->. reflexivity.
  - intros Hrange H400 H401 H403 H404.
    destruct (Z.eqb_spec (status r) 500); [lia|].
    destruct (Z.eqb_spec (status r) 400); [lia|].
    destruct (Z.eqb_spec (status r) 404); [lia|].
    destruct (Z.eqb_spec (status r) 401); [lia|].
    destruct (Z.eqb_spec (status r) 403); [lia|].
    destruct (Z.leb_spec 400 (status r)); [|lia].
    destruct (Z.ltb_spec (status r) 500); [|lia].
    reflexivity.
Qed.

Lemma check_request_return_returns r s r' :
  fst (_check_request_return r s) = Return r' -> passes (status r) /\ r' = r.
Proof.
  unfold _check_request_return, raise_for_status, bind, lift, raise, ret, passes.
  destruct (Z.eqb_spec (status r) 500) as [H500|H500]; [discriminate|].
  destruct (Z.eqb_spec (status r) 400) as [H400|H400].
  { destruct (resp_json r) as [body|err]; [|discriminate]. simpl.
    destruct (attr_get body "message"); discriminate. }
  destruct (Z.eqb_spec (status r) 404) as [H404|H404]; [discriminate|].
  destruct (Z.eqb_spec (status r) 401) as [H401|H401]; [discriminate|].
  destruct (Z.eqb_spec (status r) 403) as [H403|H403].
  { destruct (resp_json r) as [body|err]; [|discriminate]. simpl.
    destruct (getitem_key body "error") as [v1|]; [|discriminate]. simpl.
    destruct (getitem_key v1 "errors") as [v2|]; [|discriminate]. simpl.
    destruct (getitem_0 v2) as [v3|]; [|discriminate]. simpl.
    destruct (getitem_key v3 "message"); discriminate. }
  destruct (Z.leb_spec 400 (status r)), (Z.ltb_spec (status r) 500); simpl;
    try discriminate; intros [= <-]; (split; [lia|reflexivity]).
Qed.

(** X2. The classifier hands a response back exactly when its status is
    neither 500 nor a 4xx, and then hands back that very response and leaves
    the state alone: a 502 or a 503 gets through like a 200. *)
Theorem classifier_passes_iff (r : response) (s : state) :
  (passes (status r) -> _check_request_return r s = (Return r, s))
  /\ (forall r', fst (_check_request_return r s) = Return r' ->
      passes (status r) /\ r' = r).
Proof.
  split; [apply check_request_return_passes|].
  intros r'. apply check_request_return_returns.
Qed.

(** X3. A 400 whose body is not a JSON object does not become an API error:
    what decoding the body raises goes through as it is, and a body that
    decodes to something else than an object (a list, a string, null) raises
    [AttributeError]. *)
Theorem bad_request_needs_an_object (r : response) (s : state) :
  status r = 400 ->
  (forall e, resp_json r = Raise e -> _check_request_return r s = (Raise e, s))
  /\ (forall v, resp_json r = Return v -> (forall d, v <> JObj d) ->
      _check_request_return r s = (Raise AttributeError, s)).
Proof.
  intros Hst. unfold _check_request_return, bind, lift, raise. rewrite Hst. simpl.
  split.
  - intros e ->. reflexivity.
  - intros v -> Hv. destruct v; try reflexivity. destruct (Hv d). reflexivity.
Qed.

(** X4. A 403 never gets through, and when its body is not shaped as the
    classifier reads it, the error is not [ForbiddenError] but the one the
    lookup raises: what decoding raises, [KeyError] for an object without
    ["error"], [IndexError] for an empty list of errors. *)
Theorem forbidden_needs_the_shape (r : response) (s : state) :
  status r = 403 ->
  (forall r', fst (_check_request_return r s) <> Return r')
  /\ (forall e, resp_json r = Raise e -> _check_request_return r s = (Raise e, s))
  /\ (forall d, resp_json r = Return (JObj d) -> dict_lookup d "error" = None ->
      _check_request_return r s = (Raise KeyError, s))
  /\ (forall d e, resp_json r = Return (JObj d) ->
      dict_lookup d "error" = Some (JObj e) ->
      dict_lookup e "errors" = Some (JArr []) ->
      _check_request_return r s = (Raise IndexError, s)).
Proof.
  intros Hst. split; [|split; [|split]].
  - intros r' Hr'.
    destruct (check_request_return_returns r s r' Hr') as [[_ Hno] _]. lia.
  - intros e He. unfold _check_request_return, bind, lift, raise.
    rewrite Hst, He. reflexivity.
  - intros d Hd Herror. unfold _check_request_return, bind, lift, raise.
    rewrite Hst, Hd. simpl. rewrite Herror. reflexivity.
  - intros d e Hd Herror Herrors. unfold _check_request_return, bind, lift, raise.
    rewrite Hst, Hd. simpl. rewrite Herror. simpl. rewrite Herrors. reflexivity.
Qed.

(** ** The engine: what ends a run, and what a run leaves *)

Lemma dict_lookup_set_eq (d : pydict) k v : dict_lookup (dict_set d k v) k = Some v.
Proof.
  induction d as [|[k' w] d IH]; simpl.
  - rewrite String.eqb_refl. reflexivity.
  - destruct (String.eqb k' k) eqn:E; simpl; rewrite E; [reflexivity|exact IH].
Qed.

Lemma dict_lookup_set_ne (d : pydict) k k' v :
  k' <> k -> dict_lookup (dict_set d k v) k' = dict_lookup d k'.
Proof.
  intros Hne. induction d as [|[k0 w] d IH]; simpl.
  - destruct (String.eqb_spec k k'); [congruence|reflexivity].
  - destruct (String.eqb_spec k0 k) as [->|Hk0]; simpl.
    + destruct (String.eqb_spec k k'); [congruence|reflexivity].
    + destruct (String.eqb_spec k0 k'); [reflexivity|exact IH].
Qed.

Section MoreRuns.

Context {T : Type}.
Variables (req url : string) (url_params : pydict).
Variables (return_type : pydict -> result T).
Variables (body_data : option pydict) (split_lists : bool).

Local Abbreviation engine :=
  (_build_generator req url url_params return_type body_data split_lists).
Local Abbreviation pass :=
  (iteration _api_get_request url return_type body_data split_lists).
Local Abbreviation loop :=
  (while_loop _api_get_request url return_type body_data split_lists).

(** A last pass that raises [e] after it yielded [ys_x]. *)
Lemma build_generator_breaks more answers x tail ys ys_x e s :
  Forall2 (serves (session_timeout (self s))) answers more ->
  Forall (fun p => p.2 <> JNull) more ->
  map return_type (concat (map fst more)) = map Return ys ->
  (forall i url_params' s1,
      session (self s1) = Some i ->
      session_timeout (self s1) = session_timeout (self s) ->
      pass x url_params' s1
      = ((ys_x, Raise e),
         after_requests s1
           [Request (build_url (base_url +:+ url) url_params' true split_lists)
              [("Authorization", "Bearer " +:+ format_token (_user_auth_token (self s1)))]
              body_data])) ->
  engine (answers ++ x :: tail) s
  = ((ys ++ ys_x, Raise (surfaced e)),
     after_last url url_params body_data split_lists s more).
Proof.
  intros Hserved Hnext Hys Hx.
  destruct (before_last_session url url_params body_data split_lists s more)
    as [i Hsess].
  replace (Raise (surfaced e))
    with (match Raise (A := json) e with
          | Return _ => Return tt
          | Raise TimeoutError => Raise (YouTubeBackendError "Timeout occurred")
          | Raise e' => Raise e'
          end) by (destruct e; reflexivity).
  eapply (build_generator_run req url url_params return_type body_data split_lists
            more answers x tail ys ys_x (Raise e));
    [exact Hserved|exact Hnext|exact Hys| |right; eauto].
  fold (before_last url url_params body_data split_lists s more).
  erewrite Hx; [ | exact Hsess | ].
  - rewrite last_request. reflexivity.
  - unfold before_last. cbn [self after_requests]. apply with_session_timeout.
Qed.


Lemma for_each_construct_fails (good : list pydict) bad rest (ys : list T) e s :
  map return_type good = map Return ys ->
  construct return_type bad = Raise e ->
  for_each (map JObj good ++ bad :: rest)
    (fun entry => record <~ await (lift (construct return_type entry));; yield record) s
  = ((ys, Raise e), s).
Proof.
  intros Hys Hbad. revert ys Hys.
  induction good as [|g good IH]; intros [|y ys] Hys; simpl in Hys;
    try discriminate; cbn [map app for_each].
  - eapply gbind_raise. eapply gbind_raise.
    unfold await, lift. rewrite Hbad. reflexivity.
  - injection Hys as Hy Hys.
    eapply gbind_return with (ys := [y]); [|apply (IH ys Hys)|reflexivity].
    eapply gbind_return with (ys := []); [| |reflexivity].
    + unfold await, lift, construct. rewrite Hy. reflexivity.
    + reflexivity.
Qed.

Lemma iteration_construct_fails latency r d good bad rest ys e i url_params' s :
  session (self s) = Some i ->
  latency < session_timeout (self s) ->
  passes (status r) ->
  content_type r = "application/json" ->
  resp_json r = Return (JObj d) ->
  dict_get_default d "items" (JArr []) = JArr (map JObj good ++ bad :: rest) ->
  map return_type good = map Return ys ->
  construct return_type bad = Raise e ->
  pass (Reply latency r) url_params' s
  = ((ys, Raise e),
     after_requests s
       [Request (build_url (base_url +:+ url) url_params' true split_lists)
          [("Authorization", "Bearer " +:+ format_token (_user_auth_token (self s)))]
          body_data]).
Proof.
  intros Hsess Hlat Hpass Hct Hbody Hitems Hys Hbad.
  unfold iteration.
  eapply gbind_return with (ys := []); [reflexivity| |reflexivity].
  eapply gbind_return with (ys := []); [| |reflexivity].
  { cbn [self]. rewrite Hsess. apply await_eq. apply api_get_request_reply; assumption. }
  rewrite Hct. cbn [String.eqb Ascii.eqb Bool.eqb negb].
  eapply gbind_return with (ys := []);
    [apply await_eq; unfold lift; rewrite Hbody; reflexivity| |reflexivity].
  eapply gbind_return with (ys := []);
    [apply await_eq; unfold lift, attr_get_default; rewrite Hitems; reflexivity|
    |reflexivity].
  eapply gbind_return with (ys := []); [reflexivity| |reflexivity].
  eapply gbind_raise. apply for_each_construct_fails; assumption.
Qed.

Lemma iteration_unreadable latency r e i url_params' s :
  session (self s) = Some i ->
  latency < session_timeout (self s) ->
  unreadable r e ->
  pass (Reply latency r) url_params' s
  = (([], Raise e),
     after_requests s
       [Request (build_url (base_url +:+ url) url_params' true split_lists)
          [("Authorization", "Bearer " +:+ format_token (_user_auth_token (self s)))]
          body_data]).
Proof.
  intros Hsess Hlat (Hpass & Hct & Hbad).
  unfold iteration.
  eapply gbind_return with (ys := []); [reflexivity| |reflexivity].
  eapply gbind_return with (ys := []); [| |reflexivity].
  { cbn [self]. rewrite Hsess. apply await_eq. apply api_get_request_reply; assumption. }
  rewrite Hct. cbn [String.eqb Ascii.eqb Bool.eqb negb].
  destruct Hbad as [Hbody|[(v & Hbody & Hitems)|(d & items & Hbody & Hitems & Hiter)]].
  - eapply gbind_raise. apply await_eq. unfold lift. rewrite Hbody. reflexivity.
  - eapply gbind_return with (ys := []);
      [apply await_eq; unfold lift; rewrite Hbody; reflexivity| |reflexivity].
    eapply gbind_raise. apply await_eq. unfold lift. rewrite Hitems. reflexivity.
  - eapply gbind_return with (ys := []);
      [apply await_eq; unfold lift; rewrite Hbody; reflexivity| |reflexivity].
    eapply gbind_return with (ys := []);
      [apply await_eq; unfold lift, attr_get_default, dict_get_default;
       rewrite Hitems; reflexivity| |reflexivity].
    eapply gbind_raise. apply await_eq. unfold lift. rewrite Hiter. reflexivity.
Qed.

Lemma while_loop_count script :
  forall _first _after url_params' s i,
    session (self s) = Some i ->
    exists rqs,
      snd (loop _first _after url_params' script s) = after_requests s rqs
      /\ (length rqs <= S (length script))%nat
      /\ (_first = true -> (1 <= length rqs)%nat).
Proof.
  induction script as [|x script IH]; intros _first _after url_params' s i Hsess;
    cbn [while_loop];
    (destruct (_first || negb (is_None _after)) eqn:Hcond;
     [|exists []; split; [symmetry; apply after_requests_nil|];
       split; [cbn [length]; lia|intros ->; discriminate]]);
    rewrite snd_gbind, (iteration_state _ _ _ _ _ i) by assumption.
  - eexists [_]. split; [|cbn [length]; lia].
    destruct (fst (pass Silent _ s)) as [ys [a|e]]; reflexivity.
  - destruct (fst (pass x _ s)) as [ys [a|e]].
    + edestruct (IH false a (dict_set url_params' "pageToken" _after))
        as (rqs & Hrqs & Hlen & _);
        [|eexists (_ :: rqs); split;
          [etransitivity; [exact Hrqs|]; rewrite after_requests_app; reflexivity|]].
      * exact Hsess.
      * cbn [length]. lia.
    + eexists [_]. split; [reflexivity|cbn [length]; lia].
Qed.

(** X5. The verb named in the call does not matter: the table holds one
    handler and the default is the same one, so every verb runs the GET
    executor. *)
Theorem verb_is_ignored (req' : string) (script : list exchange) (s : state) :
  _build_generator req' url url_params return_type body_data split_lists script s
  = engine script s.
Proof. rewrite !build_generator_eq. reflexivity. Qed.

(** X6. No run ends with [asyncio.TimeoutError] itself: wherever in the loop
    it is raised, by the timeout scope, by the decoding of a body or by the
    record class, the consumer gets another error in its place (X9 to X11
    say which: [YouTubeBackendError("Timeout occurred")]). *)
Theorem engine_never_raises_timeout (script : list exchange) (s : state) :
  snd (fst (engine script s)) <> Raise TimeoutError.
Proof.
  rewrite build_generator_eq. unfold except_timeout.
  destruct (while_loop _ _ _ _ _ _ _ _ _ _) as [[ys [a|e]] s']; [discriminate|].
  destruct e; discriminate.
Qed.

(** X7. A run sends at least one request and at most one more than the
    exchanges of the script: each pass sends one request and uses up one
    exchange, and nothing is sent twice. *)
Theorem engine_request_bounds (script : list exchange) (s : state) :
  exists rqs,
    sent (env (snd (engine script s))) = sent (env s) ++ rqs
    /\ (1 <= length rqs <= S (length script))%nat.
Proof.
  rewrite build_generator_eq, snd_except_timeout.
  destruct (with_session_session s) as [i Hsess].
  destruct (while_loop_count script true (dict_get url_params "nextPageToken")
              url_params _ i Hsess) as (rqs & -> & Hmax & Hmin).
  exists rqs. cbn [after_requests env sent]. rewrite with_session_sent.
  split; [reflexivity|]. split; [apply Hmin; reflexivity|exact Hmax].
Qed.

(** X8. Whatever the script and however the run ends, it leaves the timeout,
    the application data and the credentials of the client as they are and
    closes no session.  With a session in place the client and the sessions
    are unchanged; without one the run makes one, open, owned by the client,
    before the first request. *)
Theorem engine_frame (script : list exchange) (s : state) :
  let s' := snd (engine script s) in
  (session_timeout (self s') = session_timeout (self s)
   /\ app_id (self s') = app_id (self s)
   /\ app_secret (self s') = app_secret (self s)
   /\ auto_refresh_auth (self s') = auto_refresh_auth (self s)
   /\ _user_auth_token (self s') = _user_auth_token (self s)
   /\ _user_auth_refresh_token (self s') = _user_auth_refresh_token (self s)
   /\ _user_auth_scopes (self s') = _user_auth_scopes (self s)
   /\ _has_user_auth (self s') = _has_user_auth (self s))
  /\ match session (self s) with
     | Some i => self s' = self s /\ closed (env s') = closed (env s)
     | None =>
         session (self s') = Some (length (closed (env s)))
         /\ _close_session (self s') = true
         /\ closed (env s') = closed (env s) ++ [false]
     end.
Proof.
  cbv zeta. engine_state rqs. unfold with_session.
  destruct (session (self s)); cbn [after_requests self env closed]; repeat split.
Qed.


(** X10. Records are yielded as they are made: when an entry of a page
    cannot be made into a record (it is not an object, or the record class
    raises), the run has yielded the records of the pages before and of the
    entries before it in the page, and ends with that exception without
    another request. *)
Theorem record_error_mid_page
    (more : list (list pydict * json)) (answers rest : list exchange)
    (latency : Z) (r : response) (d : pydict) (good : list pydict) (bad : json)
    (others : list json) (e : exn) (ys ys_good : list T) (s : state) :
  Forall2 (serves (session_timeout (self s))) answers more ->
  Forall (fun p => p.2 <> JNull) more ->
  map return_type (concat (map fst more)) = map Return ys ->
  latency < session_timeout (self s) ->
  passes (status r) ->
  content_type r = "application/json" ->
  resp_json r = Return (JObj d) ->
  dict_get_default d "items" (JArr []) = JArr (map JObj good ++ bad :: others) ->
  map return_type good = map Return ys_good ->
  construct return_type bad = Raise e ->
  let run := engine (answers ++ Reply latency r :: rest) s in
  run.1 = (ys ++ ys_good, Raise (surfaced e))
  /\ length (sent (env run.2)) = (length (sent (env s)) + length more + 1)%nat.
Proof.
  intros Hserved Hnext Hys Hlat Hpass Hct Hbody Hitems Hgood Hbad run. subst run.
  rewrite (build_generator_breaks more answers _ rest ys ys_good e s); try assumption.
  - cbn [fst snd]. split; [reflexivity|]. rewrite after_last_sent. lia.
  - intros i url_params' s1 Hsess Htime.
    apply (iteration_construct_fails latency r d good bad others ys_good e i);
      try assumption. rewrite Htime. exact Hlat.
Qed.

(** X11. A JSON response that got through the classifier but is not a page
    ends the run with a Python error and no record of its own: what decoding
    the body raises; [AttributeError] when the body is not an object;
    [TypeError] when [items] is there but is null, a number or a boolean;
    an absent [items] alone counts as empty. *)
Theorem unreadable_page_ends_run
    (more : list (list pydict * json)) (answers rest : list exchange)
    (latency : Z) (r : response) (e : exn) (ys : list T) (s : state) :
  Forall2 (serves (session_timeout (self s))) answers more ->
  Forall (fun p => p.2 <> JNull) more ->
  map return_type (concat (map fst more)) = map Return ys ->
  latency < session_timeout (self s) ->
  unreadable r e ->
  let run := engine (answers ++ Reply latency r :: rest) s in
  run.1 = (ys, Raise (surfaced e))
  /\ length (sent (env run.2)) = (length (sent (env s)) + length more + 1)%nat.
Proof.
  intros Hserved Hnext Hys Hlat Hbad run. subst run.
  rewrite <- (app_nil_r ys) at 1.
  rewrite (build_generator_breaks more answers _ rest ys [] e s); try assumption.
  - cbn [fst snd]. rewrite app_nil_r. split; [reflexivity|].
    rewrite after_last_sent. lia.
  - intros i url_params' s1 Hsess Htime.
    apply (iteration_unreadable latency r e i); try assumption.
    rewrite Htime. exact Hlat.
Qed.

(** X12. The first request is built from the parameter mapping with
    [pageToken] set to what the mapping holds under [nextPageToken] ([None]
    when it holds nothing): a [pageToken] of the caller is overwritten, and
    every other parameter, [nextPageToken] included, is passed on as it
    is. *)
Theorem page_token_overwritten (script : list exchange) (s : state) :
  exists url_params' rqs,
    sent (env (snd (engine script s)))
    = sent (env s)
      ++ {| req_url := build_url (base_url +:+ url) url_params' true split_lists;
            req_headers :=
              [("Authorization",
                "Bearer " +:+ format_token (_user_auth_token (self s)))];
            req_json := body_data |} :: rqs
    /\ dict_lookup url_params' "pageToken"
       = Some (dict_get url_params "nextPageToken")
    /\ (forall k, k <> "pageToken" ->
        dict_lookup url_params' k = dict_lookup url_params k).
Proof.
  engine_state rqs.
  exists (dict_set url_params "pageToken" (dict_get url_params "nextPageToken")), rqs.
  cbn [after_requests env sent]. rewrite with_session_sent.
  split; [reflexivity|]. split.
  - apply dict_lookup_set_eq.
  - intros k Hk. apply dict_lookup_set_ne. exact Hk.
Qed.

End MoreRuns.

(** ** Credentials and the constructor *)

(** X13. A call of [set_user_authentication] that passes both checks
    replaces the stored token, refresh token and scopes by its arguments (a
    refresh token left out erases the stored one), marks the client as
    authenticated and touches nothing else; so of two such calls in a row
    only the second shows.  With the refresh-token check passed, an empty
    scope list raises [MissingScopeError]. *)
Theorem set_user_authentication_stores (token : string) (scopes : list AuthScope)
    (refresh_token : option string) (s : state) :
  (scopes <> [] ->
   (auto_refresh_auth (self s) = true -> refresh_token <> None) ->
   set_user_authentication token scopes refresh_token s
   = (Return tt,
      {| self := {| session := session (self s);
                    session_timeout := session_timeout (self s);
                    app_id := app_id (self s);
                    app_secret := app_secret (self s);
                    auto_refresh_auth := auto_refresh_auth (self s);
                    _close_session := _close_session (self s);
                    _user_auth_token := Some token;
                    _user_auth_refresh_token := refresh_token;
                    _user_auth_scopes := ScopeList scopes;
                    _has_user_auth := true |};
         env := env s |})
   /\ forall token0 scopes0 refresh_token0,
       snd (set_user_authentication token scopes refresh_token
              (snd (set_user_authentication token0 scopes0 refresh_token0 s)))
       = snd (set_user_authentication token scopes refresh_token s))
  /\ (auto_refresh_auth (self s) = false \/ refresh_token <> None ->
      set_user_authentication token [] refresh_token s
      = (Raise (MissingScopeError "scope was not provided"), s)).
Proof.
  split.
  - intros Hscopes Hrefresh.
    assert (forall s0, auto_refresh_auth (self s0) = auto_refresh_auth (self s) ->
              bool_decide (refresh_token = None) && auto_refresh_auth (self s0) = false)
      as Hcheck.
    { intros s0 ->. destruct (auto_refresh_auth (self s)); [|apply andb_false_r].
      rewrite bool_decide_eq_false_2; [reflexivity|]. apply Hrefresh. reflexivity. }
    destruct scopes as [|scope scopes]; [congruence|].
    split.
    + unfold set_user_authentication, bind, get_self, set_self; simpl.
      rewrite (Hcheck s eq_refl). reflexivity.
    + intros token0 scopes0 refresh_token0.
      destruct (set_user_authentication_state token0 scopes0 refresh_token0 s)
        as (Hsess & Hown & Henv). cbv zeta in Hsess, Hown, Henv.
      assert (auto_refresh_auth
                (self (snd (set_user_authentication token0 scopes0 refresh_token0 s)))
              = auto_refresh_auth (self s)
              /\ session_timeout
                   (self (snd (set_user_authentication token0 scopes0 refresh_token0 s)))
                 = session_timeout (self s)
              /\ app_id
                   (self (snd (set_user_authentication token0 scopes0 refresh_token0 s)))
                 = app_id (self s)
              /\ app_secret
                   (self (snd (set_user_authentication token0 scopes0 refresh_token0 s)))
                 = app_secret (self s)) as (Hauto & Htime & Hid & Hsecret).
      { unfold set_user_authentication, bind, get_self, raise, set_self; simpl.
        destruct (bool_decide (refresh_token0 = None) && auto_refresh_auth (self s));
          [auto|]. destruct scopes0; auto. }
      unfold set_user_authentication at 1 3. unfold bind, get_self, set_self; simpl.
      rewrite (Hcheck _ Hauto), (Hcheck s eq_refl). simpl.
      rewrite Hsess, Hown, Henv, Hauto, Htime, Hid, Hsecret. reflexivity.
  - intros Hrefresh.
    unfold set_user_authentication, bind, get_self, raise; simpl.
    assert (bool_decide (refresh_token = None) && auto_refresh_auth (self s) = false)
      as ->; [|reflexivity].
    destruct Hrefresh as [->|Hsome]; [apply andb_false_r|].
    rewrite bool_decide_eq_false_2 by exact Hsome. reflexivity.
Qed.

(** X14. Left to the constructor, auto-refresh is on exactly when both the
    application id and the application secret are given; an explicit
    argument wins over that.  A client made with both and no explicit
    argument therefore refuses credentials without a refresh token, whatever
    the scopes. *)
Theorem auto_refresh_default (app_id app_secret : option string)
    (session : option nat) (timeout : option Z) :
  (auto_refresh_auth (__init__ app_id app_secret session timeout None) = true
   <-> app_id <> None /\ app_secret <> None)
  /\ (forall flag,
      auto_refresh_auth (__init__ app_id app_secret session timeout (Some flag)) = flag)
  /\ (app_id <> None -> app_secret <> None ->
      forall w token scopes,
        set_user_authentication token scopes None
          {| self := __init__ app_id app_secret session timeout None; env := w |}
        = (Raise (ValueError
                    "refresh_token has to be provided when auto_refresh_auth is True"),
           {| self := __init__ app_id app_secret session timeout None; env := w |})).
Proof.
  assert (auto_refresh_auth (__init__ app_id app_secret session timeout None) = true
          <-> app_id <> None /\ app_secret <> None) as Hauto.
  { cbn [__init__ auto_refresh_auth]. rewrite andb_true_iff, !bool_decide_eq_true.
    reflexivity. }
  split; [exact Hauto|]. split; [reflexivity|].
  intros Hid Hsecret w token scopes.
  unfold set_user_authentication, bind, get_self, raise. cbn [self fst snd].
  rewrite (proj2 Hauto (conj Hid Hsecret)). reflexivity.
Qed.

(** ** Sessions through the life of a client *)

Lemma accessor_action_state a s :
  match a with DoSetUserAuthentication _ _ _ | DoClose => False | _ => True end ->
  run_action a s = s \/ exists rqs, run_action a s = after_requests (with_session s) rqs.
Proof.
  destruct a as [token scopes refresh|ids script|script|ids script|script|script
                |pid max script|]; try contradiction; intros _; cbn [run_action].
  - destruct ids as [|id ids]; [left; reflexivity|right].
    unfold get_videos. engine_state rqs. eauto.
  - right. unfold get_user_channels, _get_channels. engine_state rqs. eauto.
  - right. unfold get_channels, _get_channels. engine_state rqs. eauto.
  - right. unfold get_user_subscriptions. engine_state rqs. eauto.
  - right. unfold get_super_chats_events. engine_state rqs. eauto.
  - right. unfold get_playlist_items. engine_state rqs. eauto.
Qed.

Lemma close_state s :
  snd (close s)
  = match session (self s), _close_session (self s) with
    | Some i, true =>
        {| self := self s;
           env := {| closed := <[i := true]> (closed (env s)); sent := sent (env s) |} |}
    | _, _ => s
    end.
Proof.
  unfold close, bind, get_self, session_close, get_env, set_env, ret; simpl.
  destruct (session (self s)); [|reflexivity].
  destruct (_close_session (self s)); reflexivity.
Qed.

(** What one action does to the session of the client and to the sessions
    there are. *)
Lemma run_action_sessions a s :
  match session (self s) with
  | None =>
      (session (self (run_action a s)) = None
       /\ closed (env (run_action a s)) = closed (env s))
      \/ (session (self (run_action a s)) = Some (length (closed (env s)))
          /\ _close_session (self (run_action a s)) = true
          /\ closed (env (run_action a s)) = closed (env s) ++ [false])
  | Some i =>
      session (self (run_action a s)) = Some i
      /\ _close_session (self (run_action a s)) = _close_session (self s)
      /\ (closed (env (run_action a s)) = closed (env s)
          \/ (a = DoClose /\ _close_session (self s) = true
              /\ closed (env (run_action a s)) = <[i := true]> (closed (env s))))
  end.
Proof.
  assert (match a with DoSetUserAuthentication _ _ _ | DoClose => False | _ => True end
          \/ (exists token scopes refresh, a = DoSetUserAuthentication token scopes refresh)
          \/ a = DoClose) as [Hacc|[(token & scopes & refresh & ->)| ->]]
    by (destruct a; eauto 6).
  - destruct (accessor_action_state a s Hacc) as [Hs|[rqs Hs]]; rewrite Hs.
    + destruct (session (self s)); auto.
    + unfold with_session.
      destruct (session (self s)) eqn:Hsess;
        cbn [after_requests self env closed session _close_session];
        rewrite ?Hsess; auto.
  - cbn [run_action].
    destruct (set_user_authentication_state token scopes refresh s) as (-> & -> & ->).
    destruct (session (self s)); auto.
  - cbn [run_action]. rewrite close_state.
    destruct (session (self s)) as [i|] eqn:Hsess; [|rewrite Hsess; auto].
    destruct (_close_session (self s)) eqn:Hown;
      cbn [self env closed]; rewrite ?Hsess, ?Hown; auto 6.
Qed.

Lemma run_actions_cons a actions s :
  run_actions (a :: actions) s = run_actions actions (run_action a s).
Proof. reflexivity. Qed.

(** A client that starts without a session. *)
Lemma run_actions_own actions : forall s0 s,
  (session (self s) = None /\ closed (env s) = closed (env s0))
  \/ (exists b, session (self s) = Some (length (closed (env s0)))
               /\ _close_session (self s) = true
               /\ closed (env s) = closed (env s0) ++ [b]) ->
  (session (self (run_actions actions s)) = None
   /\ closed (env (run_actions actions s)) = closed (env s0))
  \/ (exists b, session (self (run_actions actions s)) = Some (length (closed (env s0)))
               /\ _close_session (self (run_actions actions s)) = true
               /\ closed (env (run_actions actions s)) = closed (env s0) ++ [b]).
Proof.
  induction actions as [|a actions IH]; intros s0 s Hs; [exact Hs|].
  rewrite run_actions_cons. apply IH.
  pose proof (run_action_sessions a s) as Ha.
  destruct Hs as [[Hnone Hclosed]|(b & Hsome & Hown & Hclosed)].
  - rewrite Hnone in Ha. rewrite Hclosed in Ha.
    destruct Ha as [[? ?]|(? & ? & ?)]; [left; auto|right; exists false; auto].
  - rewrite Hsome in Ha. destruct Ha as (Hsess & Hown' & Hflags).
    right. rewrite Hown in Hown'.
    destruct Hflags as [Hsame|(_ & _ & Hflag)].
    + exists b. rewrite Hsame. auto.
    + exists true. rewrite Hflag, Hclosed.
      rewrite insert_app_r_alt by lia. rewrite Nat.sub_diag. auto.
Qed.

(** A client that has a session. *)
Lemma run_actions_keep actions : forall s i,
  session (self s) = Some i ->
  session (self (run_actions actions s)) = Some i
  /\ _close_session (self (run_actions actions s)) = _close_session (self s)
  /\ length (closed (env (run_actions actions s))) = length (closed (env s))
  /\ (_close_session (self s) = false ->
      closed (env (run_actions actions s)) = closed (env s))
  /\ (closed (env s) !! i = Some true ->
      closed (env (run_actions actions s)) !! i = Some true).
Proof.
  induction actions as [|a actions IH]; intros s i Hsess; [auto 6|].
  rewrite run_actions_cons.
  pose proof (run_action_sessions a s) as Ha. rewrite Hsess in Ha.
  destruct Ha as (Hsess' & Hown' & Hflags).
  destruct (IH _ i Hsess') as (H1 & H2 & H3 & H4 & H5).
  split; [exact H1|]. split; [congruence|]. split; [|split].
  - rewrite H3. destruct Hflags as [->|(_ & _ & ->)]; [reflexivity|].
    apply length_insert.
  - intros Hext. rewrite H4 by congruence.
    destruct Hflags as [->|(_ & Hown & _)]; [reflexivity|congruence].
  - intros Hclosed. apply H5.
    destruct Hflags as [->|(_ & _ & ->)]; [exact Hclosed|].
    rewrite list_insert_id; assumption.
Qed.

(** X15. A client constructed without a session makes at most one in its
    life, whatever is called on it and in whatever order: either it still has
    none and the sessions are as they were, or it has one new session, which
    it owns, behind the old ones, whose flags are as they were. *)
Theorem at_most_one_session (actions : list action) (s : state) :
  session (self s) = None ->
  let s' := run_actions actions s in
  (session (self s') = None /\ closed (env s') = closed (env s))
  \/ (exists b,
        session (self s') = Some (length (closed (env s)))
        /\ _close_session (self s') = true
        /\ closed (env s') = closed (env s) ++ [b]).
Proof.
  intros Hnone. apply (run_actions_own actions s s). left. auto.
Qed.

(** X16. Used as a context manager, a client constructed without a session
    leaves the block with no session of its own open: it made none, or it
    made one and [__aexit__] closed it.  A client around a session of the
    caller leaves the block with every session as it was. *)
Theorem async_with_closes_own_session (body : list action) (s : state) :
  (session (self s) = None ->
   let s' := async_with body s in
   (session (self s') = None /\ closed (env s') = closed (env s))
   \/ (session (self s') = Some (length (closed (env s)))
       /\ closed (env s') = closed (env s) ++ [true]))
  /\ (forall i, session (self s) = Some i -> _close_session (self s) = false ->
      closed (env (async_with body s)) = closed (env s)).
Proof.
  unfold async_with, __aexit__, __aenter__, get_self. cbn [snd]. split.
  - intros Hnone. cbv zeta.
    destruct (run_actions_own body s s) as [[Hsess Hclosed]|(b & Hsess & Hown & Hclosed)];
      [left; auto| |].
    + left. rewrite close_self.
      unfold close, bind, get_self, ret; simpl. rewrite Hsess. auto.
    + right. rewrite close_self. split; [exact Hsess|].
      unfold close, bind, get_self, session_close, get_env, set_env, ret; simpl.
      rewrite Hsess, Hown. unfold bind; simpl. rewrite Hclosed.
      rewrite insert_app_r_alt by lia. rewrite Nat.sub_diag. reflexivity.
  - intros i Hsess Hext.
    destruct (run_actions_keep body s i Hsess) as (Hsess' & Hown' & _ & Hsame & _).
    rewrite <- (Hsame Hext).
    unfold close, bind, get_self, ret; simpl. rewrite Hsess', Hown', Hext. reflexivity.
Qed.


(** ** The accessors *)

(** X18. Every accessor starts at the first page, whatever was called
    before: its first request goes to its own endpoint with its own
    parameters and no page token, and it goes out before anything can
    fail. *)
Theorem accessors_start_at_the_first_page (script : list exchange) (s : state) :
  let starts (s' : state) (path : string) (param : pydict) :=
    exists rqs, sent (env s') = sent (env s) ++ first_request (self s) path param :: rqs in
  (forall id ids,
      starts (snd (get_videos (id :: ids) script s)) "videos"
        [("part", JStr "snippet"); ("id", JStr (join "," (id :: ids)))])
  /\ starts (snd (get_user_channels script s)) "channels"
       [("part", JStr "snippet"); ("mine", JStr "true")]
  /\ (forall ids,
        starts (snd (get_channels ids script s)) "channels"
          [("part", JStr "snippet,contentDetails,statistics");
           ("id", JStr (join "," ids))])
  /\ starts (snd (get_user_subscriptions script s)) "subscriptions"
       [("part", JStr "snippet"); ("mine", JStr "true")]
  /\ starts (snd (get_super_chats_events script s)) "superChatEvents"
       [("part", JStr "snippet"); ("mine", JStr "true")]
  /\ (forall playlist_id max_results,
        starts (snd (get_playlist_items playlist_id max_results script s)) "playlistItems"
          [("part", JStr "snippet,contentDetails");
           ("playlistId", JStr playlist_id);
           ("maxResults", JInt match max_results with Some n => n | None => 50 end)]).
Proof.
  cbv zeta.
  repeat split; intros;
    unfold get_videos, get_user_channels, get_channels, _get_channels,
      get_user_subscriptions, get_super_chats_events, get_playlist_items;
    engine_state rqs; exists rqs;
    cbn [after_requests env sent]; rewrite with_session_sent; reflexivity.
Qed.

(** X19. [get_playlist_items] yields the items of every page up to the page
    without a cursor, whatever [max_results] is: the number only goes into
    the requests as [maxResults] and caps nothing on the side of the
    client. *)
Theorem playlist_items_are_not_capped (playlist_id : string) (max_results : option Z)
    (more : list (list pydict * json)) (last : list pydict)
    (answers rest : list exchange) (ys : list PlaylistItem) (s : state) :
  let pages := more ++ [(last, JNull)] in
  Forall2 (serves (session_timeout (self s))) answers pages ->
  Forall (fun p => p.2 <> JNull) more ->
  map YouTubePlaylistItem (concat (map fst pages)) = map Return ys ->
  let run := get_playlist_items playlist_id max_results (answers ++ rest) s in
  run.1 = (ys, Return tt)
  /\ length (sent (env run.2)) = (length (sent (env s)) + length pages)%nat.
Proof.
  intros pages Hserved Hnext Hys run. subst pages run.
  apply Forall2_app_inv_r in Hserved as (answers' & xs & Hserved & Hx & ->).
  apply Forall2_cons_inv_r in Hx as (x & nil' & Hx & Hnil & ->).
  apply Forall2_nil_inv_r in Hnil as ->.
  rewrite <- app_assoc. cbn [app]. unfold get_playlist_items.
  erewrite build_generator_pages by eassumption.
  cbn [fst snd]. split; [reflexivity|].
  rewrite after_last_sent, length_app. cbn [length]. lia.
Qed.

End Client.

(** * Concrete runs

    The collaborators the client is parametrised by, in a plain form: scopes
    are strings, a record is the dictionary of its fields, and the URL
    builder appends the parameters that are strings. *)

Module Sample.

Definition show (v : json) : string :=
  match v with
  | JBool true => "True"
  | JBool false => "False"
  | _ => "?"
  end.

Definition query (url_params : pydict) : list string :=
  flat_map (fun kv => match snd kv with
                      | JStr v => [fst kv +:+ "=" +:+ v]
                      | _ => []
                      end) url_params.

Definition url_of (url : string) (url_params : pydict) (remove_none split_lists : bool)
    : string :=
  url +:+ "?" +:+ String.concat "&" (query url_params).

Definition record (fields : pydict) : result pydict := Return fields.

(** A JSON response with status 200 that arrives after 1 time unit. *)
Definition ok (body : pydict) : exchange :=
  Reply 1 {| status := 200; content_type := "application/json";
             resp_json := Return (JObj body) |}.

Definition video (id : string) : pydict := [("id", JStr id)].

(** A client made with [YouTube()], in a world without sessions. *)
Definition fresh : state string :=
  St string (__init__ string None None None None None) (World [] []).

(** A client made with [YouTube(session=session)], the session being the
    only one there is, and open. *)
Definition guest : state string :=
  St string (__init__ string None None (Some 0%nat) None None) (World [false] []).

(** A client made with [YouTube(app_id="app", app_secret="secret")], for which
    auto-refresh is on, holding the credentials of an earlier call. *)
Definition refreshing : state string :=
  St string
    {| session := None; session_timeout := 10;
       app_id := Some "app"; app_secret := Some "secret";
       auto_refresh_auth := true; _close_session := false;
       _user_auth_token := Some "old-token";
       _user_auth_refresh_token := Some "old-refresh";
       _user_auth_scopes := ScopeList string ["readonly"];
       _has_user_auth := true |}
    (World [] []).

Definition forbidden : response :=
  {| status := 403; content_type := "application/json";
     resp_json :=
       Return (JObj [("error",
                      JObj [("errors",
                             JArr [JObj [("message", JStr "insufficient permission")]])])]) |}.

Definition engine := _build_generator string show url_of (T := pydict).

End Sample.

Ltac serves_page :=
  eexists _, _, _; repeat split; try reflexivity; try (unfold passes; simpl; lia).

Ltac served :=
  cbn [app];
  repeat match goal with
         | |- Forall2 _ [] [] => constructor
         | |- Forall2 _ (_ :: _) (_ :: _) => constructor; [serves_page|]
         | |- Forall _ [] => constructor
         | |- Forall _ (_ :: _) => constructor; [simpl; discriminate|]
         end.

(** Three pages, the second without an [items] field, from a parameter
    mapping that already holds a cursor: the three records in order, three
    requests, and the fourth exchange of the script is never asked for. *)
Lemma pagination_yields_all_pages_witness :
  let run :=
    Sample.engine "GET" "videos"
      [("part", JStr "snippet"); ("nextPageToken", JStr "c0")] Sample.record None false
      [ Sample.ok [("items", JArr [JObj (Sample.video "a"); JObj (Sample.video "b")]);
                   ("nextPageToken", JStr "c1")];
        Sample.ok [("nextPageToken", JStr "c2")];
        Sample.ok [("items", JArr [JObj (Sample.video "c")])];
        Sample.ok [("items", JArr [JObj (Sample.video "d")])] ]
      Sample.fresh in
  run.1 = ([Sample.video "a"; Sample.video "b"; Sample.video "c"], Return tt)
  /\ map req_url (sent (env string run.2))
     = map (fun cursor =>
              "https://youtube.googleapis.com/youtube/v3/videos"
              +:+ "?part=snippet&nextPageToken=c0&pageToken=" +:+ cursor)
         ["c0"; "c1"; "c2"]
  /\ length (sent (env string run.2)) = 3%nat.
Proof.
  unshelve epose proof
          (pagination_yields_all_pages string Sample.show Sample.url_of
              "GET" "videos"
              [("part", JStr "snippet"); ("nextPageToken", JStr "c0")]
              Sample.record None false
              [([Sample.video "a"; Sample.video "b"], JStr "c1"); ([], JStr "c2")]
              [Sample.video "c"]
              [ Sample.ok [("items", JArr [JObj (Sample.video "a"); JObj (Sample.video "b")]);
                           ("nextPageToken", JStr "c1")];
                Sample.ok [("nextPageToken", JStr "c2")];
                Sample.ok [("items", JArr [JObj (Sample.video "c")])] ]
              [ Sample.ok [("items", JArr [JObj (Sample.video "d")])] ]
              [Sample.video "a"; Sample.video "b"; Sample.video "c"]
              Sample.fresh _ _ _)
    as (Hrun & Hsent & Hcount & _); [served|served|reflexivity|].
  cbv zeta. split; [exact Hrun|]. split; [|exact Hcount].
  unfold Sample.engine. cbn [app] in Hsent. rewrite Hsent. reflexivity.
Defined.

(** A 400 with a message, and one without. *)
Lemma bad_request_message_witness :
  _check_request_return string Sample.show
    {| status := 400; content_type := "application/json";
       resp_json := Return (JObj [("message", JStr "quota exceeded")]) |}
    Sample.fresh
  = (Raise (YouTubeAPIError (Some "Bad Request - quota exceeded")), Sample.fresh).
Proof.
  apply (bad_request_message string Sample.show
           {| status := 400; content_type := "application/json";
              resp_json := Return (JObj [("message", JStr "quota exceeded")]) |}
           [("message", JStr "quota exceeded")] Sample.fresh);
    reflexivity.
Defined.

(** The message of the error is not the [message] field of the body. *)
Lemma bad_request_message_counterexample :
  fst (_check_request_return string Sample.show
         {| status := 400; content_type := "application/json";
            resp_json := Return (JObj [("message", JStr "quota exceeded")]) |}
         Sample.fresh)
  <> Raise (YouTubeAPIError (Some "quota exceeded")).
Proof. vm_compute. discriminate. Qed.

(** A 403 in answer to the first request: the error, no record, one
    request. *)
Lemma forbidden_response_witness :
  let run :=
    Sample.engine "GET" "videos" [("part", JStr "snippet")] Sample.record None false
      [Reply 1 Sample.forbidden] Sample.fresh in
  run.1 = ([], Raise (ForbiddenError (JStr "insufficient permission")))
  /\ length (sent (env string run.2)) = 1%nat.
Proof.
  unshelve epose proof
          (forbidden_response string Sample.show Sample.url_of
             "GET" "videos" [("part", JStr "snippet")] Sample.record None false
             [] [] [] 1 Sample.forbidden _ _ _ _ (JStr "insufficient permission") []
             Sample.fresh _ _ _ _ _ _ _ _ _)
    as (_ & Hrun & _ & Hcount);
    try reflexivity; try served; try (simpl; lia).
  cbv zeta. split; [exact Hrun|exact Hcount].
Defined.

(** A 403 in answer to the second request: the sequence has yielded the
    record of the first page. *)
Lemma forbidden_response_counterexample :
  let run :=
    Sample.engine "GET" "videos" [("part", JStr "snippet")] Sample.record None false
      [ Sample.ok [("items", JArr [JObj (Sample.video "a")]);
                   ("nextPageToken", JStr "c1")];
        Reply 1 Sample.forbidden ]
      Sample.fresh in
  run.1 = ([Sample.video "a"], Raise (ForbiddenError (JStr "insufficient permission")))
  /\ run.1.1 <> [].
Proof. vm_compute. split; [reflexivity|discriminate]. Qed.

(** A page, then a fetch that takes the 10 time units of the default
    timeout: the record of the page, the error, two requests; the third
    exchange is never asked for. *)
Lemma timeout_aborts_witness :
  let run :=
    Sample.engine "GET" "videos" [("part", JStr "snippet")] Sample.record None false
      [ Sample.ok [("items", JArr [JObj (Sample.video "a")]);
                   ("nextPageToken", JStr "c1")];
        Reply 10 {| status := 200; content_type := "application/json";
                    resp_json := Return (JObj [("items", JArr [JObj (Sample.video "b")])]) |};
        Sample.ok [("items", JArr [JObj (Sample.video "b")])] ]
      Sample.fresh in
  run.1 = ([Sample.video "a"], Raise (YouTubeBackendError "Timeout occurred"))
  /\ length (sent (env string run.2)) = 2%nat.
Proof.
  unshelve epose proof
          (timeout_aborts string Sample.show Sample.url_of
             "GET" "videos" [("part", JStr "snippet")] Sample.record None false
             [([Sample.video "a"], JStr "c1")]
             [ Sample.ok [("items", JArr [JObj (Sample.video "a")]);
                          ("nextPageToken", JStr "c1")] ]
             [ Sample.ok [("items", JArr [JObj (Sample.video "b")])] ]
             (Reply 10 {| status := 200; content_type := "application/json";
                          resp_json :=
                            Return (JObj [("items", JArr [JObj (Sample.video "b")])]) |})
             [Sample.video "a"] Sample.fresh None None None None _ _ _ _)
    as (Hrun & Hcount & _);
    try reflexivity; try served; try (simpl; lia).
  cbv zeta. split; [exact Hrun|exact Hcount].
Defined.

(** A 200 that declares [text/html] around a body that decodes as a page. *)
Lemma unexpected_response_type_witness :
  let run :=
    Sample.engine "GET" "videos" [("part", JStr "snippet")] Sample.record None false
      [ Reply 1 {| status := 200; content_type := "text/html";
                   resp_json := Return (JObj [("items", JArr [JObj (Sample.video "a")])]) |} ]
      Sample.fresh in
  run.1 = ([], Raise (YouTubeAPIError (Some "Unexpected response type")))
  /\ length (sent (env string run.2)) = 1%nat.
Proof.
  unshelve epose proof
          (unexpected_response_type string Sample.show Sample.url_of
             "GET" "videos" [("part", JStr "snippet")] Sample.record None false
             [] [] [] 1
             {| status := 200; content_type := "text/html";
                resp_json := Return (JObj [("items", JArr [JObj (Sample.video "a")])]) |}
             [] Sample.fresh _ _ _ _ _ _)
    as (Hrun & Hcount);
    try reflexivity; try served; try (unfold passes; simpl; lia);
    try (simpl; discriminate).
  cbv zeta. split; [exact Hrun|exact Hcount].
Defined.

(** A 404 that declares [text/html]: the classifier comes first. *)
Lemma unexpected_response_type_counterexample :
  let run :=
    Sample.engine "GET" "videos" [("part", JStr "snippet")] Sample.record None false
      [ Reply 1 {| status := 404; content_type := "text/html";
                   resp_json := Raise (OtherError "ContentTypeError") |} ]
      Sample.fresh in
  run.1 = ([], Raise YouTubeResourceNotFoundError)
  /\ run.1 <> ([], Raise (YouTubeAPIError (Some "Unexpected response type"))).
Proof. vm_compute. split; [reflexivity|discriminate]. Qed.

(** On a client with auto-refresh on and credentials stored, a call without
    a refresh token fails and the stored credentials stay. *)
Lemma set_user_authentication_validates_witness :
  let r := set_user_authentication string "new-token" ["readonly"] None
             Sample.refreshing in
  r.1 = Raise (ValueError
                 "refresh_token has to be provided when auto_refresh_auth is True")
  /\ r.2 = Sample.refreshing.
Proof.
  destruct (set_user_authentication_validates string "new-token" ["readonly"] None
              Sample.refreshing) as (_ & Hrefresh & Hatomic).
  cbv zeta. split.
  - apply Hrefresh. reflexivity.
  - apply (Hatomic _ (Hrefresh eq_refl)).
Defined.

(** [get_channels] with no id, served one page: the record, no error. *)
Lemma empty_id_lists_witness :
  fst (get_channels string Sample.show Sample.url_of pydict Sample.record []
         [Sample.ok [("items", JArr [JObj (Sample.video "a")])]] Sample.fresh)
  = ([Sample.video "a"], Return tt).
Proof.
  destruct (empty_id_lists string Sample.show Sample.url_of pydict pydict
              Sample.record Sample.record [] Sample.fresh) as (_ & _ & _ & Hpage).
  apply (Hpage (Sample.ok [("items", JArr [JObj (Sample.video "a")])])
           [Sample.video "a"] [Sample.video "a"]); [serves_page|reflexivity].
Defined.

(** A call that goes through, and a history of calls of which none does. *)
Lemma auth_token_round_trip_witness :
  get_user_auth_token string
    (self string
       (snd (set_user_authentication string "new-token" ["readonly"]
               (Some "new-refresh") Sample.refreshing)))
  = Some "new-token"
  /\ get_user_auth_token string
       (self string
          (run_ops string Sample.show Sample.url_of pydict pydict
             Sample.record Sample.record
             [ SetUserAuthentication string "token" [] None;
               GetVideos string [] [];
               GetChannels string ["UC1"] [Sample.ok []];
               Close string ]
             Sample.fresh))
     = None.
Proof.
  destruct (auth_token_round_trip string Sample.show Sample.url_of pydict pydict
              Sample.record Sample.record) as (Hset & Hnew).
  split.
  - apply (Hset "new-token" ["readonly"] (Some "new-refresh") Sample.refreshing);
      [discriminate|intros _; discriminate].
  - apply (Hnew None None None None None (World [] [])). reflexivity.
Defined.

(** [close] on a new client, which has no session. *)
Lemma close_respects_ownership_witness :
  close string Sample.fresh = (Return tt, Sample.fresh).
Proof.
  destruct (close_respects_ownership string Sample.show Sample.url_of pydict pydict
              Sample.record Sample.record) as (Hnone & _).
  apply Hnone. reflexivity.
Defined.

(** ** Sessions, by computation *)

(** A client around a session of the caller: a run and a [close] leave the
    session open. *)
Example guest_session_stays_open :
  closed
    (env string
       (run_ops string Sample.show Sample.url_of pydict pydict
          Sample.record Sample.record
          [ GetChannels string ["UC1"] [Sample.ok [("items", JArr [])]];
            Close string; Close string ]
          Sample.guest))
  = [false].
Proof. reflexivity. Qed.

(** A client without a session: the run makes one, [close] closes it. *)
Example own_session_is_closed :
  let after_run :=
    run_ops string Sample.show Sample.url_of pydict pydict
      Sample.record Sample.record
      [ GetChannels string ["UC1"] [Sample.ok [("items", JArr [])]] ]
      Sample.fresh in
  closed (env string after_run) = [false]
  /\ closed (env string (snd (close string after_run))) = [true].
Proof. split; reflexivity. Qed.

(** Statuses: what the classifier makes of them, whatever the body. *)
Example classifier_by_status :
  map (fun st =>
         fst (_check_request_return string Sample.show
                {| status := st; content_type := "text/html";
                   resp_json := Raise (OtherError "ContentTypeError") |}
                Sample.fresh))
    [500; 404; 401; 418; 200]
  = [ Raise (YouTubeBackendError "Internal Server Error");
      Raise YouTubeResourceNotFoundError;
      Raise UnauthorizedError;
      Raise (YouTubeAPIError None);
      Return {| status := 200; content_type := "text/html";
                resp_json := Raise (OtherError "ContentTypeError") |} ].
Proof. reflexivity. Qed.

(** * More concrete runs *)

Module More.

Definition run :=
  run_actions string Sample.show Sample.url_of pydict pydict Sample.record Sample.record
    pydict pydict pydict Sample.record Sample.record Sample.record.

Definition block :=
  async_with string Sample.show Sample.url_of pydict pydict Sample.record Sample.record
    pydict pydict pydict Sample.record Sample.record Sample.record.


(** An answer with the given status around a page of HTML. *)
Definition html (st : Z) : response :=
  {| status := st; content_type := "text/html";
     resp_json := Raise (OtherError "ContentTypeError") |}.

Definition first_page : exchange :=
  Sample.ok [("items", JArr [JObj (Sample.video "a")]); ("nextPageToken", JStr "c1")].

End More.

(** A 418 with a page of HTML. *)
Lemma status_alone_decides_witness :
  _check_request_return string Sample.show (More.html 418) Sample.fresh
  = (Raise (YouTubeAPIError None), Sample.fresh).
Proof.
  destruct (status_alone_decides string Sample.show (More.html 418) Sample.fresh)
    as (_ & _ & _ & Hother).
  apply Hother; simpl; lia.
Defined.

(** A 503 gets through. *)
Lemma classifier_passes_iff_witness :
  _check_request_return string Sample.show (More.html 503) Sample.fresh
  = (Return (More.html 503), Sample.fresh).
Proof.
  destruct (classifier_passes_iff string Sample.show (More.html 503) Sample.fresh)
    as (Hpass & _).
  apply Hpass. unfold passes. simpl. lia.
Defined.

(** A 400 whose body is a JSON list. *)
Lemma bad_request_needs_an_object_witness :
  _check_request_return string Sample.show
    {| status := 400; content_type := "application/json";
       resp_json := Return (JArr [JStr "quota exceeded"]) |} Sample.fresh
  = (Raise AttributeError, Sample.fresh).
Proof.
  destruct (bad_request_needs_an_object string Sample.show
              {| status := 400; content_type := "application/json";
                 resp_json := Return (JArr [JStr "quota exceeded"]) |} Sample.fresh
              eq_refl) as (_ & Hvalue).
  apply (Hvalue (JArr [JStr "quota exceeded"])); [reflexivity|discriminate].
Defined.

(** A 403 with the body of a 400. *)
Lemma forbidden_needs_the_shape_witness :
  _check_request_return string Sample.show
    {| status := 403; content_type := "application/json";
       resp_json := Return (JObj [("message", JStr "insufficient permission")]) |}
    Sample.fresh
  = (Raise KeyError, Sample.fresh).
Proof.
  destruct (forbidden_needs_the_shape string Sample.show
              {| status := 403; content_type := "application/json";
                 resp_json := Return (JObj [("message", JStr "insufficient permission")]) |}
              Sample.fresh eq_refl) as (_ & _ & Hkey & _).
  apply (Hkey [("message", JStr "insufficient permission")]); reflexivity.
Defined.


(** A page whose second entry is a string. *)
Lemma record_error_mid_page_witness :
  let run :=
    Sample.engine "GET" "videos" [("part", JStr "snippet")] Sample.record None false
      [ More.first_page;
        Sample.ok [("items", JArr [JObj (Sample.video "b"); JStr "c";
                                   JObj (Sample.video "d")])] ]
      Sample.fresh in
  run.1 = ([Sample.video "a"; Sample.video "b"], Raise TypeError)
  /\ length (sent (env string run.2)) = 2%nat.
Proof.
  unshelve epose proof
          (record_error_mid_page string Sample.show Sample.url_of
             "GET" "videos" [("part", JStr "snippet")] Sample.record None false
             [([Sample.video "a"], JStr "c1")] [More.first_page] [] 1
             {| status := 200; content_type := "application/json";
                resp_json :=
                  Return (JObj [("items", JArr [JObj (Sample.video "b"); JStr "c";
                                                JObj (Sample.video "d")])]) |}
             [("items", JArr [JObj (Sample.video "b"); JStr "c"; JObj (Sample.video "d")])]
             [Sample.video "b"] (JStr "c") [JObj (Sample.video "d")] TypeError
             [Sample.video "a"] [Sample.video "b"] Sample.fresh
             _ _ _ _ _ _ _ _ _ _) as H;
    try reflexivity; try served; try (unfold passes; simpl; lia).
  exact H.
Defined.

(** A page whose [items] is null. *)
Lemma unreadable_page_ends_run_witness :
  let run :=
    Sample.engine "GET" "videos" [("part", JStr "snippet")] Sample.record None false
      [ Sample.ok [("items", JNull)] ] Sample.fresh in
  run.1 = ([], Raise TypeError)
  /\ length (sent (env string run.2)) = 1%nat.
Proof.
  unshelve epose proof
          (unreadable_page_ends_run string Sample.show Sample.url_of
             "GET" "videos" [("part", JStr "snippet")] Sample.record None false
             [] [] [] 1
             {| status := 200; content_type := "application/json";
                resp_json := Return (JObj [("items", JNull)]) |}
             TypeError [] Sample.fresh _ _ _ _ _) as H;
    try reflexivity; try served; try (simpl; lia).
  - split; [unfold passes; simpl; lia|]. split; [reflexivity|].
    right. right. exists [("items", JNull)], JNull. repeat split.
  - exact H.
Defined.

(** New credentials over old ones. *)
Lemma set_user_authentication_stores_witness :
  let s' := snd (set_user_authentication string "new-token" ["upload"]
                   (Some "new-refresh") Sample.refreshing) in
  _user_auth_token string (self string s') = Some "new-token"
  /\ _user_auth_refresh_token string (self string s') = Some "new-refresh"
  /\ _user_auth_scopes string (self string s') = ScopeList string ["upload"].
Proof.
  destruct (set_user_authentication_stores string "new-token" ["upload"]
              (Some "new-refresh") Sample.refreshing) as (Hstores & _).
  destruct Hstores as (Hstate & _); [discriminate|intros _; discriminate|].
  cbv zeta. rewrite Hstate. repeat split.
Defined.

(** A client made with an application id and secret. *)
Lemma auto_refresh_default_witness :
  fst (set_user_authentication string "token" ["upload"] None
         (St string (__init__ string (Some "app") (Some "secret") None None None)
            (World [] [])))
  = Raise (ValueError "refresh_token has to be provided when auto_refresh_auth is True").
Proof.
  destruct (auto_refresh_default string (Some "app") (Some "secret") None None)
    as (_ & _ & Hrefuses).
  rewrite (Hrefuses ltac:(discriminate) ltac:(discriminate) (World [] []) "token"
             ["upload"]).
  reflexivity.
Defined.

(** Two runs and a [close] on a new client: one session. *)
Lemma at_most_one_session_witness :
  let s' :=
    More.run
      [ DoGetUserChannels string [More.first_page];
        DoClose string;
        DoGetPlaylistItems string "PL1" None [] ]
      Sample.fresh in
  (session string (self string s') = None /\ closed (env string s') = [])
  \/ (exists b,
        session string (self string s') = Some 0%nat
        /\ _close_session string (self string s') = true
        /\ closed (env string s') = [b]).
Proof.
  apply (at_most_one_session string Sample.show Sample.url_of pydict pydict
           Sample.record Sample.record pydict pydict pydict
           Sample.record Sample.record Sample.record
           [ DoGetUserChannels string [More.first_page];
             DoClose string;
             DoGetPlaylistItems string "PL1" None [] ]
           Sample.fresh).
  reflexivity.
Defined.

(** A block around one run, on a new client. *)
Lemma async_with_closes_own_session_witness :
  let s' := More.block [DoGetUserSubscriptions string [More.first_page]]
              Sample.fresh in
  (session string (self string s') = None /\ closed (env string s') = [])
  \/ (session string (self string s') = Some 0%nat /\ closed (env string s') = [true]).
Proof.
  destruct (async_with_closes_own_session string Sample.show Sample.url_of pydict pydict
              Sample.record Sample.record pydict pydict pydict
              Sample.record Sample.record Sample.record
              [DoGetUserSubscriptions string [More.first_page]] Sample.fresh)
    as (Hown & _).
  apply Hown. reflexivity.
Defined.


(** Three items over two pages with [max_results=1]. *)
Lemma playlist_items_are_not_capped_witness :
  let run :=
    get_playlist_items string Sample.show Sample.url_of pydict Sample.record
      "PL1" (Some 1)
      [ Sample.ok [("items", JArr [JObj (Sample.video "a"); JObj (Sample.video "b")]);
                   ("nextPageToken", JStr "c1")];
        Sample.ok [("items", JArr [JObj (Sample.video "c")])] ]
      Sample.fresh in
  run.1 = ([Sample.video "a"; Sample.video "b"; Sample.video "c"], Return tt)
  /\ length (sent (env string run.2)) = 2%nat.
Proof.
  unshelve epose proof
          (playlist_items_are_not_capped string Sample.show Sample.url_of
             pydict Sample.record "PL1" (Some 1)
             [([Sample.video "a"; Sample.video "b"], JStr "c1")] [Sample.video "c"]
             [ Sample.ok [("items", JArr [JObj (Sample.video "a"); JObj (Sample.video "b")]);
                          ("nextPageToken", JStr "c1")];
               Sample.ok [("items", JArr [JObj (Sample.video "c")])] ]
             [] [Sample.video "a"; Sample.video "b"; Sample.video "c"] Sample.fresh
             _ _ _) as H;
    try reflexivity; try served.
  exact H.
Defined.

(** ** Blocks, by computation *)

(** A block on a new client: the session it made is closed at the end; a
    block on a client around a session of the caller leaves it open. *)
Example blocks_and_sessions :
  closed (env string (More.block [DoGetUserSubscriptions string [More.first_page]]
                        Sample.fresh)) = [true]
  /\ closed (env string (More.block [DoGetUserSubscriptions string [More.first_page]]
                           Sample.guest)) = [false].
Proof. split; reflexivity. Qed.
